(** * blink-middleware: a shallow embedding of the live-view client

  The development follows the package layout of the Go sources:

  - [blinkProtocol]  internal/protocol/blink   (handshake and keep-alive frames)
  - [blinkAdapter]   internal/adapters/blink   (start / poll / stop session, URIs)
  - [transport]      internal/transport        (the TLS read loop)
  - [liveview]       pkg/liveview              (the connect / disconnect client)

  Go values are modelled as follows.  An [int] is a [Z]; a conversion to
  [uint32] or [byte] is written out as a reduction modulo a power of two.  A
  [string] is a [String.string] and a [[]byte] a [list byte].  An [error] is
  the text of its message, [nil] being [None].  A function that can
  dereference a nil pointer returns an [outcome], whose [Panics] case is the
  run-time panic. *)

From Stdlib Require Import ZArith List Bool Lia.
From Stdlib Require Import Strings.String Strings.Ascii Strings.Byte.
From Stdlib Require Import Numbers.DecimalString.
Import ListNotations.

Open Scope Z_scope.
Open Scope string_scope.

(** ** Go basics *)

Module Go.

(** [error]: the message of a non-nil error. *)
Definition error := string.

(** The result of running Go code that may dereference a nil pointer. *)
Inductive outcome (A : Type) : Type :=
| Returns (a : A)
| Panics (msg : string).
Arguments Returns {A} a.
Arguments Panics {A} msg.

Definition bind {A B} (m : outcome A) (k : A -> outcome B) : outcome B :=
  match m with
  | Returns a => k a
  | Panics msg => Panics msg
  end.

(** Where a loop stands when the script of what happens around it ends:
    left, with a result, or still inside, waiting for more. *)
Inductive status (A : Type) : Type :=
| Finished (result : A)
| Waiting.
Arguments Finished {A} result.
Arguments Waiting {A}.

Definition nil_dereference : string :=
  "runtime error: invalid memory address or nil pointer dereference".

(** [err != nil]. *)
Definition not_nil (err : option error) : bool :=
  match err with
  | Some _ => true
  | None => false
  end.

(** The double-quote character, as a string. *)
Definition dquote : string := String "034" EmptyString.

(** [byte(v)]: the low eight bits of an integer. *)
Definition byte_of_Z (v : Z) : byte :=
  match Byte.of_N (Z.to_N (v mod 256)) with
  | Some b => b
  | None => x00
  end.

Definition Z_of_byte (b : byte) : Z := Z.of_N (Byte.to_N b).

(** [uint32(v)] for an [int] v. *)
Definition uint32 (v : Z) : Z := v mod 2 ^ 32.

(** [binary.BigEndian.PutUint32(b, v)] on a fresh four-byte slice. *)
Definition PutUint32 (v : Z) : list byte :=
  [ byte_of_Z (Z.shiftr v 24); byte_of_Z (Z.shiftr v 16);
    byte_of_Z (Z.shiftr v 8); byte_of_Z v ].

(** The unsigned integer a byte sequence denotes, most significant first. *)
Fixpoint be_value (acc : Z) (bs : list byte) : Z :=
  match bs with
  | [] => acc
  | b :: rest => be_value (acc * 256 + Z_of_byte b) rest
  end.

End Go.

Export Go.

Notation "x <- m ;; k" := (Go.bind m (fun x => k))
(at level 61, m at next level, right associativity).

(** ** The parts of Go's standard library the sources call

    These are models of library code, not of the repository: each follows the
    documented behaviour of the Go function of the same name on the inputs the
    repository gives it. *)

Module strings.

(** [strings.Split(s, sep)] for a separator of one byte: the pieces of [s]
    between the occurrences of [sep].  The result is never empty, [Split "" sep]
    being [[""]]. *)
Fixpoint Split (s : string) (sep : ascii) : list string :=
  match s with
  | EmptyString => [EmptyString]
  | String c rest =>
      if Ascii.eqb c sep then EmptyString :: Split rest sep
      else match Split rest sep with
           | [] => [String c EmptyString]
           | piece :: pieces => String c piece :: pieces
           end
  end.

(** [strings.Cut(s, sep)] for a separator of one byte. *)
Fixpoint Cut (s : string) (sep : ascii) : string * string * bool :=
  match s with
  | EmptyString => (EmptyString, EmptyString, false)
  | String c rest =>
      if Ascii.eqb c sep then (EmptyString, rest, true)
      else let '(before, after, found) := Cut rest sep in
           (String c before, after, found)
  end.

(** [s[:i]] and [s[i+1:]] for [i := strings.LastIndex(s, sep)], when [i >= 0]. *)
Fixpoint CutLast (s : string) (sep : ascii) : option (string * string) :=
  match s with
  | EmptyString => None
  | String c rest =>
      match CutLast rest sep with
      | Some (before, after) => Some (String c before, after)
      | None => if Ascii.eqb c sep then Some (EmptyString, rest) else None
      end
  end.

Fixpoint Contains (s : string) (c : ascii) : bool :=
  match s with
  | EmptyString => false
  | String a rest => Ascii.eqb a c || Contains rest c
  end.

Fixpoint all_bytes (p : ascii -> bool) (s : string) : bool :=
  match s with
  | EmptyString => true
  | String a rest => p a && all_bytes p rest
  end.

Definition HasPrefix (s prefix : string) : bool := String.prefix prefix s.

End strings.

Module strconv.

Definition is_digit (c : ascii) : bool :=
  let n := nat_of_ascii c in (48 <=? n)%nat && (n <=? 57)%nat.

Definition digit_value (c : ascii) : Z := Z.of_nat (nat_of_ascii c) - 48.

Fixpoint digits_value (acc : Z) (s : string) : Z :=
  match s with
  | EmptyString => acc
  | String c rest => digits_value (acc * 10 + digit_value c) rest
  end.

Definition maxInt : Z := 2 ^ 63 - 1.
Definition minInt : Z := - 2 ^ 63.

Definition ErrSyntax : error := "strconv.Atoi: invalid syntax".
Definition ErrRange : error := "strconv.Atoi: value out of range".

(** [strconv.Atoi(s)] on a platform whose [int] has 64 bits: an optional sign
    and one or more decimal digits.  As in Go the result is a pair: on a syntax
    error the integer is 0, on a range error it is the nearest bound. *)
Definition Atoi (s : string) : Z * option error :=
  match s with
  | EmptyString => (0, Some ErrSyntax)
  | String c rest =>
      let neg := Ascii.eqb c "-" in
      let digits := if neg || Ascii.eqb c "+" then rest else s in
      match digits with
      | EmptyString => (0, Some ErrSyntax)
      | _ =>
          if strings.all_bytes is_digit digits then
            let n := digits_value 0 digits in
            let v := if neg then - n else n in
            if (v <? minInt)%Z then (minInt, Some ErrRange)
            else if (maxInt <? v)%Z then (maxInt, Some ErrRange)
            else (v, None)
          else (0, Some ErrSyntax)
      end
  end.

(** [strconv.Itoa(i)], the text the verb [%d] prints. *)
Definition Itoa (i : Z) : string := NilZero.string_of_int (Z.to_int i).

End strconv.

Module fmt.

(** An operand of [Sprintf] or [Errorf]. *)
Inductive arg : Type :=
| Int (i : Z)
| Str (s : string)
| Err (e : error)
| Pointer (text : string).

Definition verb_name (v : ascii) : string := String v EmptyString.

(** What one verb prints for one operand. *)
Definition format_arg (v : ascii) (a : arg) : string :=
  match a with
  | Int i =>
      if Ascii.eqb v "d" || Ascii.eqb v "v" then strconv.Itoa i
      else "%!" ++ verb_name v ++ "(int=" ++ strconv.Itoa i ++ ")"
  | Str s =>
      if Ascii.eqb v "s" || Ascii.eqb v "v" then s
      else "%!" ++ verb_name v ++ "(string=" ++ s ++ ")"
  | Err e =>
      if Ascii.eqb v "w" || Ascii.eqb v "v" || Ascii.eqb v "s" then e
      else "%!" ++ verb_name v ++ "(*errors.errorString=" ++ e ++ ")"
  | Pointer text => text
  end.

(** [fmt.Sprintf(format, args...)] for formats whose verbs are a single letter
    ([%d], [%s], [%v], [%w]) or [%%]. *)
Fixpoint Sprintf (format : string) (args : list arg) : string :=
  match format with
  | EmptyString => EmptyString
  | String c rest =>
      if Ascii.eqb c "%" then
        match rest with
        | EmptyString => "%!(NOVERB)"
        | String v rest' =>
            if Ascii.eqb v "%" then String "%" (Sprintf rest' args)
            else match args with
                 | a :: args' => format_arg v a ++ Sprintf rest' args'
                 | [] => "%!" ++ verb_name v ++ "(MISSING)" ++ Sprintf rest' []
                 end
        end
      else String c (Sprintf rest args)
  end.

(** [fmt.Errorf]: an error whose message is the formatted text. *)
Definition Errorf (format : string) (args : list arg) : error :=
  Sprintf format args.

End fmt.

(** [net/url], as of Go 1.23: the scheme, the query and the fragment are cut
    off, the authority is split into user and host, the port is checked to be
    digits, and host, path, query and fragment are percent-decoded with the
    checks of their mode.  Left out: the zone identifier of an IPv6 literal,
    and the fields ([User], [RawPath], [ForceQuery], [OmitHost]) the sources
    never read. *)
Module url.

(** The fields of [url.URL] the sources read. *)
Record URL : Type := mkURL {
  Scheme : string;
  Opaque : string;
  Host : string;      (* host or host:port *)
  Path : string;
  RawQuery : string;  (* the part after the question mark *)
  Fragment : string
}.

(** The error [url.Parse] wraps its failures in. *)
Definition ParseError (rawURL : string) (msg : string) : error :=
  "parse " ++ dquote ++ rawURL ++ dquote ++ ": " ++ msg.

Definition code (c : ascii) : nat := nat_of_ascii c.

Definition is_ctl (c : ascii) : bool :=
  (code c <? 32)%nat || (code c =? 127)%nat.

Definition is_lower (c : ascii) : bool := (97 <=? code c)%nat && (code c <=? 122)%nat.
Definition is_upper (c : ascii) : bool := (65 <=? code c)%nat && (code c <=? 90)%nat.
Definition is_alpha (c : ascii) : bool := is_lower c || is_upper c.
Definition is_alnum (c : ascii) : bool := is_alpha c || strconv.is_digit c.

Definition to_lower (c : ascii) : ascii :=
  if is_upper c then ascii_of_nat (code c + 32) else c.

Fixpoint ToLower (s : string) : string :=
  match s with
  | EmptyString => EmptyString
  | String c rest => String (to_lower c) (ToLower rest)
  end.

Definition ishex (c : ascii) : bool :=
  strconv.is_digit c
  || ((97 <=? code c)%nat && (code c <=? 102)%nat)
  || ((65 <=? code c)%nat && (code c <=? 70)%nat).

Definition unhex (c : ascii) : nat :=
  if strconv.is_digit c then code c - 48
  else if (97 <=? code c)%nat then code c - 97 + 10
  else code c - 65 + 10.

Inductive encoding : Type :=
| encodePath | encodeHost | encodeUserPassword | encodeQueryComponent
| encodeFragment.

Definition is_host (mode : encoding) : bool :=
  match mode with encodeHost => true | _ => false end.

Definition is_query (mode : encoding) : bool :=
  match mode with encodeQueryComponent => true | _ => false end.

Definition one_of (c : ascii) (set : string) : bool := strings.Contains set c.

(** [shouldEscape(c, encodeHost)]: the bytes a host may not hold. *)
Definition shouldEscapeHost (c : ascii) : bool :=
  negb (is_alnum c
        || one_of c "!$&'()*+,;=:[]<>"
        || Ascii.eqb c "034"
        || one_of c "-_.~").

(** [unescape(s, mode)]: percent-decoding, with the checks of the mode. *)
Fixpoint unescape (s : string) (mode : encoding) : string + error :=
  match s with
  | EmptyString => inl EmptyString
  | String c rest =>
      if Ascii.eqb c "%" then
        match rest with
        | String h1 (String h2 rest') =>
            if ishex h1 && ishex h2 then
              if is_host mode && (unhex h1 <? 8)%nat
                 && negb (Ascii.eqb h1 "2" && Ascii.eqb h2 "5")
              then inr ("invalid URL escape " ++ dquote
                        ++ String c (String h1 (String h2 EmptyString)) ++ dquote)
              else
                match unescape rest' mode with
                | inl t => inl (String (ascii_of_nat (unhex h1 * 16 + unhex h2)) t)
                | inr e => inr e
                end
            else inr ("invalid URL escape " ++ dquote
                      ++ String c (String h1 (String h2 EmptyString)) ++ dquote)
        | _ => inr ("invalid URL escape " ++ dquote ++ s ++ dquote)
        end
      else if Ascii.eqb c "+" then
        match unescape rest mode with
        | inl t => inl (String (if is_query mode then " "%char else c) t)
        | inr e => inr e
        end
      else if is_host mode && (code c <? 128)%nat && shouldEscapeHost c then
        inr ("invalid character " ++ dquote ++ String c EmptyString ++ dquote
             ++ " in host name")
      else
        match unescape rest mode with
        | inl t => inl (String c t)
        | inr e => inr e
        end
  end.

(** [getScheme]: [None] is the error, [Some None] a URL without scheme. *)
Fixpoint getScheme_from (first : bool) (s : string)
  : option (option (string * string)) :=
  match s with
  | EmptyString => Some None
  | String c rest =>
      let continue :=
        match getScheme_from false rest with
        | Some (Some (scheme, after)) => Some (Some (String c scheme, after))
        | other => other
        end in
      if is_alpha c then continue
      else if strconv.is_digit c || one_of c "+-." then
        if first then Some None else continue
      else if Ascii.eqb c ":" then
        if first then None else Some (Some (EmptyString, rest))
      else Some None
  end.

Definition getScheme (rawURL : string) : (string * string) + error :=
  match getScheme_from true rawURL with
  | None => inr "missing protocol scheme"
  | Some None => inl (EmptyString, rawURL)
  | Some (Some r) => inl r
  end.

Definition validOptionalPort (port : string) : bool :=
  match port with
  | EmptyString => true
  | String c digits => Ascii.eqb c ":" && strings.all_bytes strconv.is_digit digits
  end.

(** [parseHost], without the zone identifiers of IPv6 literals. *)
Definition parseHost (host : string) : string + error :=
  let bad_port colonPort :=
    inr ("invalid port " ++ dquote ++ colonPort ++ dquote ++ " after host") in
  if strings.HasPrefix host "[" then
    match strings.CutLast host "]" with
    | None => inr "missing ']' in host"
    | Some (_, colonPort) =>
        if validOptionalPort colonPort then unescape host encodeHost
        else bad_port colonPort
    end
  else
    match strings.CutLast host ":" with
    | Some (_, port) =>
        if validOptionalPort (String ":" port) then unescape host encodeHost
        else bad_port (String ":" port)
    | None => unescape host encodeHost
    end.

Definition validUserinfo (s : string) : bool :=
  strings.all_bytes
    (fun c => is_alnum c || one_of c "-._:~!$&'()*+,;=%@") s.

(** [parseAuthority]: the host of [user@host]; the user is checked and dropped. *)
Definition parseAuthority (authority : string) : string + error :=
  match strings.CutLast authority "@" with
  | None => parseHost authority
  | Some (userinfo, host) =>
      match parseHost host with
      | inr e => inr e
      | inl h =>
          if validUserinfo userinfo then
            match unescape userinfo encodeUserPassword with
            | inl _ => inl h
            | inr e => inr e
            end
          else inr "net/url: invalid userinfo"
      end
  end.

(** [parse(rawURL, viaRequest = false)]. *)
Definition parse (rawURL : string) : URL + error :=
  if negb (strings.all_bytes (fun c => negb (is_ctl c)) rawURL) then
    inr "net/url: invalid control character in URL"
  else if String.eqb rawURL "*" then
    inl (mkURL "" "" "" "*" "" "")
  else
    match getScheme rawURL with
    | inr e => inr e
    | inl (scheme, rest) =>
        let scheme := ToLower scheme in
        let '(rest, rawQuery, _) := strings.Cut rest "?" in
        let rooted := strings.HasPrefix rest "/" in
        if negb rooted && negb (String.eqb scheme "") then
          inl (mkURL scheme rest "" "" rawQuery "")
        else if negb rooted
                && strings.Contains (fst (fst (strings.Cut rest "/"))) ":" then
          inr "first path segment in URL cannot contain colon"
        else if strings.HasPrefix rest "//"
                && (negb (String.eqb scheme "")
                    || negb (strings.HasPrefix rest "///")) then
          let '(authority, after, found) :=
            strings.Cut (String.substring 2 (String.length rest - 2) rest) "/" in
          let rest := if found then String "/" after else EmptyString in
          match parseAuthority authority with
          | inr e => inr e
          | inl host =>
              match unescape rest encodePath with
              | inr e => inr e
              | inl path => inl (mkURL scheme "" host path rawQuery "")
              end
          end
        else
          match unescape rest encodePath with
          | inr e => inr e
          | inl path => inl (mkURL scheme "" "" path rawQuery "")
          end
    end.

(** [url.Parse(rawURL)]. *)
Definition Parse (rawURL : string) : URL + error :=
  let '(u, frag, _) := strings.Cut rawURL "#" in
  match parse u with
  | inr e => inr (ParseError u e)
  | inl parsed =>
      if String.eqb frag "" then inl parsed
      else
        match unescape frag encodeFragment with
        | inr e => inr (ParseError rawURL e)
        | inl f =>
            inl (mkURL (Scheme parsed) (Opaque parsed) (Host parsed)
                       (Path parsed) (RawQuery parsed) f)
        end
  end.

(** [splitHostPort]. *)
Definition splitHostPort (hostPort : string) : string * string :=
  let '(host, port) :=
    match strings.CutLast hostPort ":" with
    | Some (before, after) =>
        if validOptionalPort (String ":" after) then (before, after)
        else (hostPort, EmptyString)
    | None => (hostPort, EmptyString)
    end in
  let n := String.length host in
  if strings.HasPrefix host "[" && String.eqb (String.substring (n - 1) 1 host) "]"
  then (String.substring 1 (n - 2) host, port)
  else (host, port).

(** [u.Hostname()] and [u.Port()]. *)
Definition Hostname (u : URL) : string := fst (splitHostPort (Host u)).
Definition Port (u : URL) : string := snd (splitHostPort (Host u)).

(** [url.Values], in the order of the query; [Get] reads the first value. *)
Definition Values : Type := list (string * string).

Definition parse_pair (piece : string) : option (string * string) :=
  if strings.Contains piece ";" || String.eqb piece "" then None
  else
    let '(key, value, _) := strings.Cut piece "=" in
    match unescape key encodeQueryComponent,
          unescape value encodeQueryComponent with
    | inl k, inl v => Some (k, v)
    | _, _ => None
    end.

(** [v, _ := url.ParseQuery(query)]: the pairs that parse, the others dropped. *)
Fixpoint collect (pieces : list string) : Values :=
  match pieces with
  | [] => []
  | piece :: rest =>
      match parse_pair piece with
      | Some kv => kv :: collect rest
      | None => collect rest
      end
  end.

Definition Query (u : URL) : Values := collect (strings.Split (RawQuery u) "&").

Fixpoint Get (v : Values) (key : string) : string :=
  match v with
  | [] => EmptyString
  | (k, value) :: rest => if String.eqb k key then value else Get rest key
  end.

End url.

(** ** internal/protocol/blink *)

Module blinkProtocol.

Definition FRAMES_KEEPALIVE : list byte :=
  [ x12; x00; x00; x03; xe8; x00; x00; x00;
    x18; x00; x00; x00; x00; x00; x00; x00;
    x00; x00; x00; x00; x00; x00; x00; x00;
    x00; x00; x00; x00; x00; x00; x01; x00;
    x00 ].

Definition GenerateAuthFrames (connectionId : string) (clientId : Z)
  : list (list byte) :=
  (* Frame 1 (unknown) *)
  let frame1 :=
    [ x00; x00; x00; x28; x00; x00; x00; x00;
      x00; x00; x00; x00; x00; x00; x00; x00;
      x00; x00; x00; x00; x00; x00; x00; x00 ] in
  (* Frame 2 (Client ID) *)
  let clientIDBytes := PutUint32 (uint32 clientId) in
  let frame2 :=
    [ nth 0 clientIDBytes x00; nth 1 clientIDBytes x00;
      nth 2 clientIDBytes x00; nth 3 clientIDBytes x00 ] in
  (* Frame 3 (unknown) *)
  let frame3 :=
    [ x01; x08; x00; x00; x00; x00; x00; x00;
      x00; x00; x00; x00; x00; x00; x00; x00;
      x00; x00; x00; x00; x00; x00; x00; x00;
      x00; x00; x00; x00; x00; x00; x00; x00;
      x00; x00; x00; x00; x00; x00; x00; x00;
      x00; x00; x00; x00; x00; x00; x00; x00;
      x00; x00; x00; x00; x00; x00; x00; x00;
      x00; x00; x00; x00; x00; x00; x00; x00;
      x00; x00; x00; x00; x00; x00; x00; x00;
      x00; x10 ] in
  (* Frame 4 (Connection ID) *)
  let frame4 := list_byte_of_string connectionId in
  (* Frame 5 (unknown) *)
  let frame5 :=
    [ x00; x00; x00; x01; x0a; x00; x00; x00;
      x00; x00; x00; x00; x00 ] in
  [ frame1; frame2; frame3; frame4; frame5 ].

End blinkProtocol.

Module http.

Record Request : Type := mkRequest {
  Method : string;
  URL : string;
  Header : list (string * string);
  Body : string
}.

(** What the caller gets out of a response body: [io.ReadAll(resp.Body)] may
    fail, [json.Unmarshal(body, &result)] may fail, or [result] is filled. *)
Inductive payload (A : Type) : Type :=
| ReadError (e : error)
| DecodeError (e : error)
| Decoded (result : A).
Arguments ReadError {A} e.
Arguments DecodeError {A} e.
Arguments Decoded {A} result.

Record Response (A : Type) : Type := mkResponse {
  StatusCode : Z;
  Payload : payload A
}.
Arguments mkResponse {A} StatusCode Payload.
Arguments StatusCode {A} r.
Arguments Payload {A} r.

Definition StatusOK : Z := 200.

(** What [client.Do(req)] returns: a response pointer, nil on a transport
    error, and an error. *)
Definition reply (A : Type) : Type := option (Response A) * option error.

(** [http.NewRequest(method, url, body)] fails when the URL does not parse. *)
Definition NewRequest (method url body : string) : Request + error :=
  match url.Parse url with
  | inr e => inr e
  | inl _ => inl (mkRequest method url [] body)
  end.

(** [req.Header.Set(key, value)], [key] in canonical form. *)
Fixpoint set (h : list (string * string)) (key value : string)
  : list (string * string) :=
  match h with
  | [] => [(key, value)]
  | (k, v) :: rest =>
      if String.eqb k key then (key, value) :: rest
      else (k, v) :: set rest key value
  end.

Definition Header_Set (req : Request) (key value : string) : Request :=
  mkRequest (Method req) (URL req) (set (Header req) key value) (Body req).

End http.

(** ** internal/adapters/blink *)

Module blinkAdapter.

Import http.

Definition BASE_URL : string := "https://rest-%s.immedia-semi.com".

Record ClientCredentials : Type := mkCredentials {
  Region : string;
  ApiToken : string;
  DeviceType : string;
  AccountId : Z;
  NetworkId : Z;
  CameraId : Z
}.

Definition CreateLiveViewURI (cc : ClientCredentials) : string * option error :=
  let t := DeviceType cc in
  let path :=
    if String.eqb t "camera" then
      "/api/v5/accounts/%d/networks/%d/cameras/%d/liveview"
    else if String.eqb t "owl" || String.eqb t "hawk" then
      "/api/v2/accounts/%d/networks/%d/owls/%d/liveview"
    else if String.eqb t "doorbell" || String.eqb t "lotus" then
      "/api/v2/accounts/%d/networks/%d/doorbells/%d/liveview"
    else "" in
  if negb (String.eqb path "") then
    (fmt.Sprintf (BASE_URL ++ path)
       [fmt.Str (Region cc); fmt.Int (AccountId cc); fmt.Int (NetworkId cc);
        fmt.Int (CameraId cc)],
     None)
  else
    ("", Some (fmt.Errorf "cannot build path for unknown device type: %s"
                 [fmt.Str (DeviceType cc)])).

Definition CreatePollingURI (cc : ClientCredentials) (commandId : Z)
  : string * option error :=
  (fmt.Sprintf (BASE_URL ++ "/network/%d/command/%d")
     [fmt.Str (Region cc); fmt.Int (NetworkId cc); fmt.Int commandId],
   None).

(** The five results of [ParseConnectionString], in the order of the source:
    host, port, client id, connection id, error. *)
Definition connection : Type := string * string * Z * string * option error.

Definition invalid (e : error) : connection := ("", "", 0, "", Some e).

Definition ParseConnectionString (server : string) : connection :=
  match url.Parse server with
  | inr err => invalid err
  | inl parsedUrl =>
      if String.eqb (url.Hostname parsedUrl) "" then
        invalid (fmt.Errorf "invalid host" [])
      else if negb (String.eqb (url.Port parsedUrl) "443") then
        invalid (fmt.Errorf "unexpected port %s. Expecting 443"
                   [fmt.Str (url.Port parsedUrl)])
      else
        let pathSegments := strings.Split (url.Path parsedUrl) "/" in
        if Nat.eqb (List.length pathSegments) 0 then
          invalid (fmt.Errorf "invalid path" [])
        else
          let connID :=
            strings.Split
              (nth (List.length pathSegments - 1) pathSegments "") "_" in
          if (List.length connID <? 2)%nat || String.eqb (nth 0 connID "") "" then
            invalid (fmt.Errorf "invalid connection ID" [])
          else
            let '(clientID, err) :=
              strconv.Atoi (url.Get (url.Query parsedUrl) "client_id") in
            if (clientID =? 0)%Z || not_nil err then
              invalid (fmt.Errorf "invalid client ID" [])
            else
              (url.Hostname parsedUrl, url.Port parsedUrl, clientID,
               nth 0 connID "", None)
  end.

Definition SetRequestHeaders (req : Request) (token : string) : Request :=
  let req := Header_Set req "Locale" "en_US" in
  let req := Header_Set req "Authorization"
               (fmt.Sprintf "Bearer %s" [fmt.Str token]) in
  Header_Set req "Content-Type" "application/json; charset=UTF-8".

Record CommandResponse : Type := mkCommandResponse {
  Code : Z;
  StatusCode : Z;
  Message : string;
  Complete : bool
}.

Record LiveviewResponse : Type := mkLiveviewResponse {
  CommandId : Z;
  PollingInterval : Z;
  Server : string
}.

(** [resp.StatusCode != http.StatusOK || err != nil], the test all three
    operations make on what [client.Do] returned.  The left operand is
    evaluated first, so a nil [resp] panics before [err] is looked at. *)
Definition status_check {A} (r : reply A) : outcome (bool * Response A) :=
  match r with
  | (None, _) => Panics nil_dereference
  | (Some resp, err) =>
      Returns (negb (http.StatusCode resp =? StatusOK)%Z
               || not_nil err, resp)
  end.

(** One event of the [select] in [PollCommand]: the context is done, or the
    ticker fires and [client.Do] answers the request. *)
Inductive poll_event : Type :=
| CtxDone
| Tick (do : Request -> reply CommandResponse).

Fixpoint poll_loop (cc : ClientCredentials) (url : string)
  (events : list poll_event) (sent : list Request)
  : list Request * status (outcome (option error)) :=
  match events with
  | [] => (sent, Waiting)
  | CtxDone :: _ => (sent, Finished (Returns None))
  | Tick do :: later =>
      match NewRequest "GET" url "" with
      | inr err => (sent, Finished (Returns (Some err)))
      | inl req =>
          let req := SetRequestHeaders req (ApiToken cc) in
          let sent := (sent ++ [req])%list in
          match status_check (do req) with
          | Panics msg => (sent, Finished (Panics msg))
          | Returns (true, resp) =>
              (sent, Finished (Returns (Some
                 (fmt.Errorf "error polling command. HTTP Status Code %d"
                    [fmt.Int (http.StatusCode resp)]))))
          | Returns (false, resp) =>
              match Payload resp with
              | ReadError err => (sent, Finished (Returns (Some err)))
              | DecodeError err => (sent, Finished (Returns (Some err)))
              | Decoded result =>
                  if Complete result then
                    (sent, Finished (Returns (Some
                       (fmt.Errorf
                          "command marked as complete. Cannot poll further" []))))
                  else poll_loop cc url later sent
              end
          end
      end
  end.

(** [time.Duration(pollInterval) * time.Second], in 64-bit arithmetic. *)
Definition wrap64 (v : Z) : Z := (v + 2 ^ 63) mod 2 ^ 64 - 2 ^ 63.
Definition Second : Z := 1000000000.

Definition PollCommand (events : list poll_event) (cc : ClientCredentials)
  (commandId pollInterval : Z)
  : list Request * status (outcome (option error)) :=
  if (wrap64 (pollInterval * Second) <=? 0)%Z then
    ([], Finished (Panics "non-positive interval for NewTicker"))
  else
    match CreatePollingURI cc commandId with
    | (_, Some err) =>
        ([], Finished (Returns (Some
           (fmt.Errorf "error creating polling URL: %w" [fmt.Err err]))))
    | (url, None) => poll_loop cc url events []
    end.

Definition InitiateLiveView (do : Request -> reply LiveviewResponse)
  (cc : ClientCredentials)
  : list Request * outcome (option LiveviewResponse * option error) :=
  match CreateLiveViewURI cc with
  | (_, Some err) =>
      ([], Returns (None, Some
         (fmt.Errorf "error getting liveview path: %w" [fmt.Err err])))
  | (url, None) =>
      let jsonBody := "{" ++ dquote ++ "intent" ++ dquote ++ ":"
                      ++ dquote ++ "liveview" ++ dquote ++ "}" in
      match NewRequest "POST" url jsonBody with
      | inr err => ([], Returns (None, Some err))
      | inl req =>
          let req := SetRequestHeaders req (ApiToken cc) in
          ([req],
           match status_check (do req) with
           | Panics msg => Panics msg
           | Returns (true, resp) =>
               Returns (None, Some
                 (fmt.Errorf "error from API. HTTP Status Code %d"
                    [fmt.Int (http.StatusCode resp)]))
           | Returns (false, resp) =>
               match Payload resp with
               | ReadError err => Returns (None, Some err)
               | DecodeError err => Returns (None, Some err)
               | Decoded result =>
                   if (CommandId result =? 0)%Z then
                     Returns (None, Some
                       (fmt.Errorf "error sending liveview command: %v"
                          [fmt.Pointer "&{...}"]))
                   else Returns (Some result, None)
               end
           end)
      end
  end.

Definition StopCommand (do : Request -> reply CommandResponse)
  (cc : ClientCredentials) (commandId : Z)
  : list Request * outcome (option error) :=
  match CreatePollingURI cc commandId with
  | (_, Some err) =>
      ([], Returns (Some
         (fmt.Errorf "error creating polling URL: %w" [fmt.Err err])))
  | (url, None) =>
      match NewRequest "POST" (url ++ "/done") "" with
      | inr err => ([], Returns (Some err))
      | inl req =>
          let req := SetRequestHeaders req (ApiToken cc) in
          ([req],
           match status_check (do req) with
           | Panics msg => Panics msg
           | Returns (true, resp) =>
               Returns (Some
                 (fmt.Errorf "cannot stop command. HTTP Status Code %d"
                    [fmt.Int (http.StatusCode resp)]))
           | Returns (false, resp) =>
               match Payload resp with
               | ReadError err => Returns (Some err)
               | DecodeError err => Returns (Some err)
               | Decoded result =>
                   if negb (Code result =? 902)%Z then
                     Returns (Some
                       (fmt.Errorf
                          "cannot stop command. API Code %d with message %s"
                          [fmt.Int (Code result); fmt.Str (Message result)]))
                   else Returns None
               end
           end)
      end
  end.

End blinkAdapter.

(** ** The TLS connection *)

Module tls.

(** A connection as its user sees it: the blocks written so far, and what the
    far end and the clock make of each call. *)
Record Conn : Type := mkConn {
  RemoteAddr : string;
  written : list (list byte);
  writes : nat;                           (* calls of Write so far *)
  write_result : nat -> option error;     (* the result of the k-th Write *)
  SetWriteDeadline_result : option error
}.

Definition Write (c : Conn) (b : list byte) : Conn * option error :=
  let k := writes c in
  match write_result c k with
  | Some err =>
      (mkConn (RemoteAddr c) (written c) (S k) (write_result c)
              (SetWriteDeadline_result c), Some err)
  | None =>
      (mkConn (RemoteAddr c) (written c ++ [b]) (S k) (write_result c)
              (SetWriteDeadline_result c), None)
  end.

End tls.

(** ** internal/protocol/blink, sending *)

Module blinkSend.

Import blinkProtocol.

Fixpoint write_frames (client : tls.Conn) (frames : list (list byte))
  : tls.Conn * option error :=
  match frames with
  | [] => (client, None)
  | frame :: rest =>
      match tls.Write client frame with
      | (client, Some err) =>
          (client, Some (fmt.Errorf "error sending connection header: %w"
                           [fmt.Err err]))
      | (client, None) => write_frames client rest
      end
  end.

Definition SendAuthFrames (client : tls.Conn) (connectionId : string)
  (clientId : Z) : tls.Conn * option error :=
  match tls.SetWriteDeadline_result client with
  | Some err =>
      (client, Some (fmt.Errorf "error setting write deadline: %w" [fmt.Err err]))
  | None => write_frames client (GenerateAuthFrames connectionId clientId)
  end.

Definition SendPing (client : tls.Conn) : tls.Conn * option error :=
  match tls.SetWriteDeadline_result client with
  | Some err =>
      (client, Some (fmt.Errorf "error setting write deadline: %w" [fmt.Err err]))
  | None =>
      match tls.Write client FRAMES_KEEPALIVE with
      | (client, Some err) =>
          (client, Some (fmt.Errorf "error sending keep-alive: %w" [fmt.Err err]))
      | (client, None) => (client, None)
      end
  end.

End blinkSend.

(** ** internal/transport *)

Module transport.

Import blinkAdapter.

(** A [time.Duration], in nanoseconds. *)
Definition Duration : Type := Z.
Definition Second : Duration := 1000000000.

Record StreamConfig : Type := mkStreamConfig {
  Writer : nat;                (* the sink the stream is written to *)
  Ctx : nat;                   (* the cancelable context *)
  ReadTimeout : Duration;
  PingInterval : Duration;
  OnPing : tls.Conn -> tls.Conn * option error;
  OnConnect : tls.Conn -> tls.Conn * option error
}.

(** The error of a failed [client.Read], by the tests the loop makes on it. *)
Record read_error : Type := mkReadError {
  is_EOF : bool;          (* errors.Is(err, io.EOF) *)
  is_ECONNRESET : bool;   (* errors.Is(err, syscall.ECONNRESET) *)
  is_Timeout : bool;      (* err is a net.Error and netErr.Timeout() *)
  text : error
}.

(** What the surroundings do during one iteration of the read loop. *)
Record iteration : Type := mkIteration {
  ctx_done : bool;                     (* is config.Ctx.Done() ready *)
  now_deadline : Z;                    (* time.Now() for the read deadline *)
  SetReadDeadline_result : option error;
  read_data : list byte;               (* buf[:n] after client.Read(buf) *)
  read_err : option read_error;
  sink_result : option error;          (* config.Writer.Write(buf[:n]) *)
  now_check : Z;                       (* time.Now() in time.Since(start) *)
  now_reset : Z                        (* time.Now() when the timer is reset *)
}.

(** What the stream does, in order. *)
Inductive event : Type :=
| Log (msg : string)
| SetReadDeadline (now : Z) (timeout : Duration)
| Read (n : nat)
| SinkWrite (data : list byte)
| Ping
| Close.

Definition classify (err : read_error) : error :=
  if is_EOF err then
    fmt.Errorf "connection closed gracefully by peer: %w" [fmt.Err (text err)]
  else if is_ECONNRESET err then
    fmt.Errorf "connection reset by peer: %w" [fmt.Err (text err)]
  else if is_Timeout err then
    fmt.Errorf "read timeout: %w" [fmt.Err (text err)]
  else
    fmt.Errorf "error reading from server: %w" [fmt.Err (text err)].

(** The loop labelled [stream]: the events of the iterations the script
    covers, the connection, and the value of [streamErr] once the loop is left. *)
Fixpoint stream_loop (config : StreamConfig) (script : list iteration)
  (client : tls.Conn) (start : Z) (readTimeout : Duration)
  : list event * tls.Conn * status (option error) :=
  match script with
  | [] => ([], client, Waiting)
  | it :: later =>
      if ctx_done it then
        ([Log "Closing TCP stream"], client, Finished None)
      else
        let deadline := SetReadDeadline (now_deadline it) readTimeout in
        match SetReadDeadline_result it with
        | Some err =>
            ([deadline], client,
             Finished (Some (fmt.Errorf "error setting read deadline: %w"
                               [fmt.Err err])))
        | None =>
            let read := Read (List.length (read_data it)) in
            match read_err it with
            | Some err => ([deadline; read], client, Finished (Some (classify err)))
            | None =>
                let write := SinkWrite (read_data it) in
                match sink_result it with
                | Some err =>
                    ([deadline; read; write], client,
                     Finished (Some (fmt.Errorf "error writing to writer: %w"
                                       [fmt.Err err])))
                | None =>
                    if (PingInterval config <? now_check it - start)%Z then
                      match OnPing config client with
                      | (client, Some err) =>
                          ([deadline; read; write; Ping], client,
                           Finished (Some (fmt.Errorf
                                             "error sending keep-alive: %w"
                                             [fmt.Err err])))
                      | (client, None) =>
                          let '(events, client, result) :=
                            stream_loop config later client (now_reset it)
                                        (2 * Second) in
                          (deadline :: read :: write :: Ping :: events,
                           client, result)
                      end
                    else
                      let '(events, client, result) :=
                        stream_loop config later client start (2 * Second) in
                      (deadline :: read :: write :: events, client, result)
                end
            end
        end
  end.

(** What the surroundings do during one call of [Stream]. *)
Record session : Type := mkSession {
  dial : tls.Conn + error;      (* tls.Dial *)
  now_start : Z;                (* time.Now() before the handshake *)
  script : list iteration
}.

Definition Stream (env : session) (config : StreamConfig) (host port : string)
  : list event * status (option error) :=
  let connecting := Log (fmt.Sprintf "Connecting to %s:%s"
                           [fmt.Str host; fmt.Str port]) in
  match dial env with
  | inr err =>
      ([connecting],
       Finished (Some (fmt.Errorf "unable to initialize stream: %w"
                         [fmt.Err err])))
  | inl client =>
      let connected := Log (fmt.Sprintf "Connected to %s"
                              [fmt.Str (tls.RemoteAddr client)]) in
      let leaving :=
        [Log (fmt.Sprintf "Disconnected from %s"
                [fmt.Str (tls.RemoteAddr client)]); Close] in
      let start := now_start env in
      match OnConnect config client with
      | (_, Some err) =>
          ((connecting :: connected :: leaving)%list,
           Finished (Some (fmt.Errorf "error on connect: %w" [fmt.Err err])))
      | (client, None) =>
          let readTimeout := ReadTimeout config in
          match stream_loop config (script env) client start readTimeout with
          | (events, _, Finished streamErr) =>
              ((connecting :: connected :: events ++ leaving)%list,
               Finished streamErr)
          | (events, _, Waiting) =>
              ((connecting :: connected :: events)%list, Waiting)
          end
      end
  end.

(** The timeouts of the read deadlines in a trace, in order. *)
Fixpoint read_timeouts (trace : list event) : list Duration :=
  match trace with
  | [] => []
  | SetReadDeadline _ timeout :: rest => timeout :: read_timeouts rest
  | _ :: rest => read_timeouts rest
  end.

(** The number of reads in a trace. *)
Fixpoint reads (trace : list event) : nat :=
  match trace with
  | [] => 0%nat
  | Read _ :: rest => S (reads rest)
  | _ :: rest => reads rest
  end.

End transport.

(** ** pkg/liveview *)

Module liveview.

Import http blinkAdapter.

Record ClientConfig : Type := mkClientConfig {
  ConnectTimeout : transport.Duration
}.

Record clientState : Type := mkState {
  connected : bool;
  lvCommandId : Z;
  streamContext : option nat;   (* nil, or the context *)
  streamCancel : option nat     (* nil, or the cancel function of the context *)
}.

Record Client : Type := mkClient {
  credentials : ClientCredentials;
  config : ClientConfig;
  state : clientState
}.

(** A goroutine [Connect] has started. *)
Inductive goroutine : Type :=
| GoPollCommand (ctx : nat) (cc : ClientCredentials)
    (commandId pollInterval : Z)
| GoStreamThenDisconnect (streamConfig : transport.StreamConfig)
    (host port : string).

Definition context_of (g : goroutine) : nat :=
  match g with
  | GoPollCommand ctx _ _ _ => ctx
  | GoStreamThenDisconnect streamConfig _ _ => transport.Ctx streamConfig
  end.

(** What lies outside the client: the requests sent so far, the contexts
    created and those cancelled, the goroutines started, the lines logged. *)
Record World : Type := mkWorld {
  requests : list Request;
  contexts : nat;
  cancelled : list nat;
  goroutines : list goroutine;
  logged : list string
}.

Definition is_cancelled (w : World) (ctx : nat) : bool :=
  existsb (Nat.eqb ctx) (cancelled w).

(** A goroutine no one has told to stop: its context is not cancelled. *)
Definition running (w : World) (g : goroutine) : bool :=
  negb (is_cancelled w (context_of g)).

Definition send (w : World) (sent : list Request) : World :=
  mkWorld (requests w ++ sent) (contexts w) (cancelled w) (goroutines w)
          (logged w).

Definition go (w : World) (g : goroutine) : World :=
  mkWorld (requests w) (contexts w) (cancelled w) (goroutines w ++ [g])
          (logged w).

(** [context.WithCancel(context.Background())]. *)
Definition WithCancel (w : World) : nat * World :=
  (contexts w,
   mkWorld (requests w) (S (contexts w)) (cancelled w) (goroutines w)
           (logged w)).

(** Calling a cancel function; a second call changes nothing. *)
Definition cancel (w : World) (ctx : nat) : World :=
  if is_cancelled w ctx then w
  else mkWorld (requests w) (contexts w) (ctx :: cancelled w) (goroutines w)
               (logged w).

Definition log_Printf (w : World) (line : string) : World :=
  mkWorld (requests w) (contexts w) (cancelled w) (goroutines w)
          (logged w ++ [line]).

Definition NewClient (region apiToken deviceType : string)
  (accountId networkId cameraId : Z) : Client :=
  mkClient
    (mkCredentials region apiToken deviceType accountId networkId cameraId)
    (mkClientConfig (15 * transport.Second))
    (mkState false 0 None None).

Definition Connect (do : Request -> reply LiveviewResponse) (writer : nat)
  (c : Client) (w : World) : outcome (option error * Client * World) :=
  if connected (state c) then
    Returns (Some (fmt.Errorf
                     "error during connect: client is already connected" []),
             c, w)
  else
    let '(sent, started) := InitiateLiveView do (credentials c) in
    let w := send w sent in
    r <- started ;;
    match r with
    | (_, Some err) =>
        Returns (Some (fmt.Errorf "error during connect: %w" [fmt.Err err]),
                 c, w)
    | (None, None) => Panics nil_dereference
    | (Some resp, None) =>
        let '(ctx, w) := WithCancel w in
        let c := mkClient (credentials c) (config c)
                   (mkState true (CommandId resp) (Some ctx) (Some ctx)) in
        let w := go w (GoPollCommand ctx (credentials c) (CommandId resp)
                         (PollingInterval resp)) in
        (* Get the connection details *)
        match ParseConnectionString (Server resp) with
        | (_, _, _, _, Some err) =>
            Returns (Some (fmt.Errorf
                       "error during connect: parsing connection string: %w"
                       [fmt.Err err]),
                     c, w)
        | (host, port, clientId, connId, None) =>
            let streamConfig :=
              transport.mkStreamConfig writer ctx (ConnectTimeout (config c))
                (1 * transport.Second) blinkSend.SendPing
                (fun conn => blinkSend.SendAuthFrames conn connId clientId) in
            (* Connect to the TCP server *)
            Returns (None, c, go w (GoStreamThenDisconnect streamConfig host port))
        end
    end.

Definition Disconnect (do : Request -> reply CommandResponse)
  (c : Client) (w : World) : outcome (option error * Client * World) :=
  if negb (connected (state c)) then Returns (None, c, w)
  else
    match streamCancel (state c) with
    | None => Panics nil_dereference
    | Some ctx =>
        let w := cancel w ctx in
        let '(sent, stopped) :=
          StopCommand do (credentials c) (lvCommandId (state c)) in
        let w := send w sent in
        err <- stopped ;;
        let w :=
          match err with
          | Some err =>
              log_Printf w (fmt.Sprintf "Error stopping command: %v"
                              [fmt.Err err])
          | None => w
          end in
        Returns (None,
                 mkClient (credentials c) (config c) (mkState false 0 None None),
                 w)
    end.

Definition IsConnected (c : Client) : bool := connected (state c).

(** The world before anything has happened. *)
Definition quiet : World := mkWorld [] 0 [] [] [].

End liveview.

(** ** Vocabulary of the statements *)

Module expected.

Import blinkAdapter.

(** The live-view URI of one template family, written out. *)
Definition liveview_uri (api family region : string) (acct net cam : Z) : string :=
  "https://rest-" ++ region ++ ".immedia-semi.com/api/" ++ api ++ "/accounts/"
  ++ strconv.Itoa acct ++ "/networks/" ++ strconv.Itoa net ++ "/" ++ family
  ++ "/" ++ strconv.Itoa cam ++ "/liveview".

(** The device-family tags that select a template. *)
Definition supported (tag : string) : Prop :=
  In tag ["camera"; "owl"; "hawk"; "doorbell"; "lotus"].

(** The last segment of the path of a parsed connection string. *)
Definition last_segment (u : url.URL) : string :=
  let segments := strings.Split (url.Path u) "/" in
  nth (List.length segments - 1) segments "".

(** The text of its [client_id] query parameter, empty when there is none. *)
Definition client_id_param (u : url.URL) : string :=
  url.Get (url.Query u) "client_id".

(** A result of [ParseConnectionString] that carries an error. *)
Definition fails (r : connection) : Prop := exists e, r = invalid e.

(** What [client.Do] returns on a transport error: no response, and the error. *)
Definition transport_error {A} (e : error) : http.Request -> http.reply A :=
  fun _ => (None, Some e).

(** A tick at which the poll goes on: whatever the request, the answer has
    status 200 and a command status that is not complete. *)
Definition keeps_polling (ev : poll_event) : Prop :=
  exists do,
    ev = Tick do
    /\ forall req, exists result,
         do req = (Some (http.mkResponse 200 (http.Decoded result)), None)
         /\ Complete result = false.

(** For each read of a trace, the timeout of the read deadline in force when
    it is made: that of the last [SetReadDeadline] before it, if any. *)
Fixpoint deadlines_of_reads (current : option transport.Duration)
  (trace : list transport.event) : list (option transport.Duration) :=
  match trace with
  | [] => []
  | transport.SetReadDeadline _ timeout :: rest =>
      deadlines_of_reads (Some timeout) rest
  | transport.Read _ :: rest => current :: deadlines_of_reads current rest
  | _ :: rest => deadlines_of_reads current rest
  end.

(** A connection on which every call succeeds. *)
Definition healthy (addr : string) : tls.Conn :=
  tls.mkConn addr [] 0 (fun _ => None) None.

(** An iteration in which [data] arrives and all goes well, at time [now]. *)
Definition arrives (data : list byte) (now : Z) : transport.iteration :=
  transport.mkIteration false now None data None None now now.

(** An iteration whose read fails with a timeout. *)
Definition times_out (now : Z) : transport.iteration :=
  transport.mkIteration false now None []
    (Some (transport.mkReadError false false true "i/o timeout")) None now now.

(** The start-session answer: status 200 and a decodable session descriptor. *)
Definition session_started (commandId pollInterval : Z) (server : string)
  : http.Request -> http.reply LiveviewResponse :=
  fun _ =>
    (Some (http.mkResponse 200
             (http.Decoded (mkLiveviewResponse commandId pollInterval server))),
     None).

(** The stop-session answer: status 200 and a decodable command status. *)
Definition command_status (code : Z) (message : string)
  : http.Request -> http.reply CommandResponse :=
  fun _ =>
    (Some (http.mkResponse 200
             (http.Decoded (mkCommandResponse code 0 message false))),
     None).

(** The error of a [Connect] on a connected client. *)
Definition AlreadyConnected : error :=
  "error during connect: client is already connected".

(** The timeouts [n] reads should see: the first the initial one, the others
    two seconds. *)
Definition adaptive (initial : transport.Duration) (n : nat)
  : list (option transport.Duration) :=
  match n with
  | O => []
  | S k => Some initial :: repeat (Some (2 * transport.Second)) k
  end.

End expected.

(** ** Vocabulary of the further statements *)

Module observed.

Import http blinkAdapter.

(** The headers every request to the vendor carries. *)
Definition authenticated (cc : ClientCredentials) (req : Request) : Prop :=
  Header req =
    [("Locale", "en_US");
     ("Authorization", "Bearer " ++ ApiToken cc);
     ("Content-Type", "application/json; charset=UTF-8")].

(** The poll URI of a command, written out. *)
Definition polling_uri (cc : ClientCredentials) (commandId : Z) : string :=
  "https://rest-" ++ Region cc ++ ".immedia-semi.com/network/"
  ++ strconv.Itoa (NetworkId cc) ++ "/command/" ++ strconv.Itoa commandId.

(** The body of the start request. *)
Definition intent_liveview : string :=
  "{" ++ dquote ++ "intent" ++ dquote ++ ":" ++ dquote ++ "liveview" ++ dquote
  ++ "}".

(** A request as an adapter operation sends it. *)
Definition sent_as (cc : ClientCredentials) (method uri body : string)
  (req : Request) : Prop :=
  Method req = method /\ URL req = uri /\ Body req = body
  /\ authenticated cc req.

(** The polling intervals, in seconds, a ticker can be made for. *)
Definition ticks (pollInterval : Z) : Prop :=
  0 < pollInterval <= 9223372036.

(** A tick answered with the given status and command status, no error. *)
Definition answers (status : Z) (result : CommandResponse) : poll_event :=
  Tick (fun _ => (Some (mkResponse status (Decoded result)), None)).

(** The blocks a trace hands to the sink, in order. *)
Fixpoint sink_writes (trace : list transport.event) : list (list byte) :=
  match trace with
  | [] => []
  | transport.SinkWrite data :: rest => data :: sink_writes rest
  | _ :: rest => sink_writes rest
  end.

(** The number of keep-alive pings in a trace. *)
Fixpoint pings (trace : list transport.event) : nat :=
  match trace with
  | [] => 0%nat
  | transport.Ping :: rest => S (pings rest)
  | _ :: rest => pings rest
  end.

(** The number of times a trace closes the connection. *)
Fixpoint closes (trace : list transport.event) : nat :=
  match trace with
  | [] => 0%nat
  | transport.Close :: rest => S (closes rest)
  | _ :: rest => closes rest
  end.

(** The number of times a trace sets a read deadline. *)
Definition deadlines (trace : list transport.event) : nat :=
  List.length (transport.read_timeouts trace).

(** An iteration in which nothing goes wrong: the context is not done, the
    deadline is set, data is read and the sink takes it. *)
Definition smooth (it : transport.iteration) : Prop :=
  transport.ctx_done it = false
  /\ transport.SetReadDeadline_result it = None
  /\ transport.read_err it = None
  /\ transport.sink_result it = None.

(** A world whose cancelled contexts have all been created. *)
Definition settled (w : liveview.World) : Prop :=
  forall ctx, In ctx (liveview.cancelled w) -> (ctx < liveview.contexts w)%nat.

(** For each read of a trace, the read deadline it is made under: the clock
    reading and the timeout of the last [SetReadDeadline] before it, the
    deadline being their sum. *)
Fixpoint read_deadlines (current : option (Z * transport.Duration))
  (trace : list transport.event) : list (option (Z * transport.Duration)) :=
  match trace with
  | [] => []
  | transport.SetReadDeadline now timeout :: rest =>
      read_deadlines (Some (now, timeout)) rest
  | transport.Read _ :: rest => current :: read_deadlines current rest
  | _ :: rest => read_deadlines current rest
  end.

(** The deadline a read in iteration [it] should be made under, for a given
    timeout: the time of that iteration and the timeout. *)
Definition under (timeout : transport.Duration) (it : transport.iteration)
  : option (Z * transport.Duration) :=
  Some (transport.now_deadline it, timeout).

(** The deadlines the reads of the given iterations should be made under, one
    read each: the first with the initial timeout, the others with two
    seconds. *)
Definition adaptive_deadlines (initial : transport.Duration)
  (iterations : list transport.iteration)
  : list (option (Z * transport.Duration)) :=
  match iterations with
  | [] => []
  | it :: more =>
      under initial it :: map (under (2 * transport.Second)) more
  end.

End observed.

(** * Properties *)

Section FramingProtocol.

Import blinkProtocol.

Lemma Z_of_byte_of_Z (v : Z) : Z_of_byte (byte_of_Z v) = v mod 256.
Proof.
  unfold Z_of_byte, byte_of_Z.
  assert (Hr : 0 <= v mod 256 < 256) by (apply Z.mod_pos_bound; lia).
  destruct (Byte.of_N (Z.to_N (v mod 256))) as [b|] eqn:E.
  - apply Byte.to_of_N in E. rewrite E. apply Z2N.id. lia.
  - apply Byte.of_N_None_iff in E. lia.
Qed.

Lemma be_value_PutUint32 (v : Z) :
  0 <= v < 2 ^ 32 -> be_value 0 (PutUint32 v) = v.
Proof.
  intros Hv. unfold PutUint32. cbn [be_value].
  rewrite !Z_of_byte_of_Z, !Z.shiftr_div_pow2 by lia.
  change (2 ^ 24) with 16777216. change (2 ^ 16) with 65536.
  change (2 ^ 8) with 256. change (2 ^ 32) with 4294967296 in Hv.
  assert (H24 : v / 16777216 < 256) by (apply Z.div_lt_upper_bound; lia).
  assert (H24' : 0 <= v / 16777216) by (apply Z.div_pos; lia).
  rewrite (Z.mod_small (v / 16777216)) by lia.
  pose proof (Z.div_mod v 256 ltac:(lia)) as E0.
  pose proof (Z.div_mod (v / 256) 256 ltac:(lia)) as E1.
  pose proof (Z.div_mod (v / 256 / 256) 256 ltac:(lia)) as E2.
  rewrite !Z.div_div in E1, E2 by lia.
  change (256 * 256) with 65536 in *.
  rewrite !Z.div_div in E2 by lia.
  change (65536 * 256) with 16777216 in *.
  lia.
Qed.

Lemma uint32_range (v : Z) : 0 <= uint32 v < 2 ^ 32.
Proof. unfold uint32. apply Z.mod_pos_bound. lia. Qed.

Lemma length_list_byte_of_string (s : string) :
  List.length (list_byte_of_string s) = String.length s.
Proof.
  unfold list_byte_of_string.
  induction s as [|c s IH]; cbn; [reflexivity | now rewrite IH].
Qed.

Lemma client_id_block (connectionId : string) (clientId : Z) :
  nth 1 (GenerateAuthFrames connectionId clientId) [] =
  PutUint32 (uint32 clientId).
Proof. reflexivity. Qed.

(** C5.  The handshake is always five blocks, of 24, 4, 74, len(connection id)
    and 13 bytes.  Block 2 is four bytes that read, most significant byte
    first, as the client id (as a uint32); block 4 is the bytes of the
    connection id and nothing more; blocks 1, 3 and 5 are the same for all
    inputs. *)
Theorem GenerateAuthFrames_layout (connectionId : string) (clientId : Z) :
  exists frame1 frame2 frame3 frame4 frame5,
    GenerateAuthFrames connectionId clientId =
      [frame1; frame2; frame3; frame4; frame5]
    /\ List.length frame1 = 24%nat
    /\ List.length frame2 = 4%nat
    /\ List.length frame3 = 74%nat
    /\ List.length frame4 = String.length connectionId
    /\ List.length frame5 = 13%nat
    /\ be_value 0 frame2 = clientId mod 2 ^ 32
    /\ frame4 = list_byte_of_string connectionId
    /\ forall connectionId' clientId',
         exists frame2' frame4',
           GenerateAuthFrames connectionId' clientId' =
             [frame1; frame2'; frame3; frame4'; frame5].
Proof.
  unfold GenerateAuthFrames.
  do 5 eexists. split; [reflexivity|].
  repeat split; try reflexivity.
  - apply length_list_byte_of_string.
  - change (be_value 0 (PutUint32 (uint32 clientId)) = clientId mod 2 ^ 32).
    now rewrite be_value_PutUint32 by apply uint32_range.
  - intros. do 2 eexists. reflexivity.
Qed.

(** C10.  No client id is turned away: whatever integer it is, block 2 holds
    its residue modulo 2^32, most significant byte first, so a negative id
    comes out as its two's-complement bit pattern. *)
Theorem GenerateAuthFrames_client_id_wraps (connectionId : string) (clientId : Z) :
  List.length (GenerateAuthFrames connectionId clientId) = 5%nat
  /\ List.length (nth 1 (GenerateAuthFrames connectionId clientId) []) = 4%nat
  /\ be_value 0 (nth 1 (GenerateAuthFrames connectionId clientId) []) =
       clientId mod 2 ^ 32
  /\ be_value 0 (nth 1 (GenerateAuthFrames connectionId (- 1)) []) = 2 ^ 32 - 1.
Proof.
  rewrite !client_id_block.
  split; [reflexivity|]. split; [reflexivity|]. split.
  - now rewrite be_value_PutUint32 by apply uint32_range.
  - rewrite be_value_PutUint32 by apply uint32_range. reflexivity.
Qed.

Example handshake_ABC_55 :
  nth 1 (GenerateAuthFrames "ABC" 55) [] = [x00; x00; x00; x37]
  /\ nth 3 (GenerateAuthFrames "ABC" 55) [] = [x41; x42; x43]
  /\ nth 1 (GenerateAuthFrames "ABC" (- 1)) [] = [xff; xff; xff; xff]
  /\ List.length FRAMES_KEEPALIVE = 33%nat.
Proof. repeat split. Qed.

End FramingProtocol.

Section CommandLifecycleAdapter.

Import http blinkAdapter expected.

Lemma append_empty_r (s : string) : s ++ "" = s.
Proof. induction s as [|c s IH]; cbn; [reflexivity | now rewrite IH]. Qed.

(** *** Building the live-view URI *)

(** C9.  The device-family tag alone picks the template: "camera" the v5
    cameras one, "owl" and "hawk" the v2 owls one, "doorbell" and "lotus" the
    v2 doorbells one, each filled with the region and the account, network and
    camera ids in that order; any other tag gives no URI and an error naming
    the tag. *)
Theorem CreateLiveViewURI_by_device_type
  (region token tag : string) (acct net cam : Z) :
  let cc := mkCredentials region token tag acct net cam in
  (tag = "camera" ->
   CreateLiveViewURI cc = (liveview_uri "v5" "cameras" region acct net cam, None))
  /\ (tag = "owl" \/ tag = "hawk" ->
      CreateLiveViewURI cc = (liveview_uri "v2" "owls" region acct net cam, None))
  /\ (tag = "doorbell" \/ tag = "lotus" ->
      CreateLiveViewURI cc =
        (liveview_uri "v2" "doorbells" region acct net cam, None))
  /\ (~ supported tag ->
      CreateLiveViewURI cc =
        ("", Some ("cannot build path for unknown device type: " ++ tag))).
Proof.
  intros cc. subst cc.
  repeat split.
  - intros ->. reflexivity.
  - intros [-> | ->]; reflexivity.
  - intros [-> | ->]; reflexivity.
  - intros Hno. unfold supported in Hno. cbn [In] in Hno.
    unfold CreateLiveViewURI. cbn [DeviceType].
    assert (E : forall t, tag <> t -> String.eqb tag t = false)
      by (intros t; apply String.eqb_neq).
    rewrite !E by (intros ->; tauto).
    cbn. now rewrite append_empty_r.
Qed.

Lemma CreateLiveViewURI_by_device_type_witness :
  CreateLiveViewURI (mkCredentials "u011" "tok" "hawk" 12345 67890 11111) =
    ("https://rest-u011.immedia-semi.com/api/v2/accounts/12345/networks/67890/owls/11111/liveview",
     None)
  /\ CreateLiveViewURI (mkCredentials "u011" "tok" "mini" 12345 67890 11111) =
       ("", Some "cannot build path for unknown device type: mini").
Proof.
  pose proof (CreateLiveViewURI_by_device_type "u011" "tok" "hawk" 12345 67890 11111)
    as (_ & Howl & _ & _).
  pose proof (CreateLiveViewURI_by_device_type "u011" "tok" "mini" 12345 67890 11111)
    as (_ & _ & _ & Hother).
  split.
  - apply Howl. right. reflexivity.
  - apply Hother. unfold supported. cbn [In].
    intros [H | [H | [H | [H | [H | []]]]]]; discriminate H.
Defined.

(** *** Parsing the connection string *)

Lemma Split_nonempty (s : string) (sep : ascii) : strings.Split s sep <> [].
Proof.
  induction s as [|c s IH]; cbn; [discriminate|].
  destruct (Ascii.eqb c sep); [discriminate|].
  destruct (strings.Split s sep); [contradiction | discriminate].
Qed.

Lemma Split_at_first (head tail : string) (sep : ascii) :
  strings.Contains head sep = false ->
  strings.Split (head ++ String sep tail) sep = head :: strings.Split tail sep.
Proof.
  induction head as [|c head IH]; cbn; intros Hno.
  - now rewrite Ascii.eqb_refl.
  - apply Bool.orb_false_iff in Hno as [Hc Hhead].
    rewrite Hc, (IH Hhead). reflexivity.
Qed.

Lemma Split_length (s : string) (sep : ascii) :
  (1 <= List.length (strings.Split s sep))%nat.
Proof.
  pose proof (Split_nonempty s sep).
  destruct (strings.Split s sep); [contradiction | cbn; lia].
Qed.

Lemma invalid_is_error (e : error) (host port : string) (clientId : Z)
  (connId : string) : invalid e <> (host, port, clientId, connId, None).
Proof. unfold invalid. intros H. inversion H. Qed.

(** Closes a branch in which the parse has returned an error. *)
Ltac refused :=
  let H := fresh "H" in intros H; now apply invalid_is_error in H.

(** What a successful parse has passed. *)
Lemma ParseConnectionString_success (server host port connId : string)
  (clientId : Z) :
  ParseConnectionString server = (host, port, clientId, connId, None) ->
  exists u,
    url.Parse server = inl u
    /\ host = url.Hostname u /\ host <> ""
    /\ port = url.Port u /\ port = "443"
    /\ connId = nth 0 (strings.Split (last_segment u) "_") "" /\ connId <> ""
    /\ strconv.Atoi (client_id_param u) = (clientId, None)
    /\ clientId <> 0.
Proof.
  unfold ParseConnectionString, last_segment, client_id_param.
  destruct (url.Parse server) as [u | e]; [|refused].
  destruct (String.eqb_spec (url.Hostname u) "") as [|Hhost]; [refused|].
  destruct (String.eqb_spec (url.Port u) "443") as [Hport|]; cbn [negb];
    [|refused].
  destruct (Nat.eqb _ 0); [refused|].
  destruct (_ <? 2)%nat; cbn [orb]; [refused|].
  destruct (String.eqb_spec
              (nth 0 (strings.Split
                        (nth (List.length (strings.Split (url.Path u) "/") - 1)
                             (strings.Split (url.Path u) "/") "") "_") "") "")
    as [|Hconn]; [refused|].
  destruct (strconv.Atoi _) as [n err] eqn:Hatoi.
  destruct (Z.eqb_spec n 0) as [|Hn]; cbn [orb]; [refused|].
  destruct err; cbn [not_nil]; [refused|].
  intros H. inversion H; subst. exists u. repeat split; auto.
Qed.

(** C3, as the code has it.  Parsing is a function of the string alone.  A
    connection string that parses as a URL with a host, port 443, a last path
    segment [connId_suffix] with [connId] not empty, and a [client_id] that
    reads as a non-zero int, gives that host, "443", that client id and
    [connId].  A successful parse always returns port 443 and a client id
    other than zero, which may be negative.  Any other port, a missing or zero
    [client_id], and an empty connection-id part each make the parse fail. *)
Theorem ParseConnectionString_descriptor (server : string) (u : url.URL) :
  url.Parse server = inl u ->
  (forall connId suffix clientId,
      url.Hostname u <> "" ->
      url.Port u = "443" ->
      last_segment u = connId ++ "_" ++ suffix ->
      connId <> "" ->
      strings.Contains connId "_" = false ->
      strconv.Atoi (client_id_param u) = (clientId, None) ->
      clientId <> 0 ->
      ParseConnectionString server =
        (url.Hostname u, "443", clientId, connId, None))
  /\ (forall host port clientId connId,
         ParseConnectionString server = (host, port, clientId, connId, None) ->
         port = "443" /\ clientId <> 0 /\ host <> "" /\ connId <> "")
  /\ (url.Port u <> "443" -> fails (ParseConnectionString server))
  /\ (client_id_param u = "" -> fails (ParseConnectionString server))
  /\ (fst (strconv.Atoi (client_id_param u)) = 0 ->
      fails (ParseConnectionString server))
  /\ (nth 0 (strings.Split (last_segment u) "_") "" = "" ->
      fails (ParseConnectionString server)).
Proof.
  intros Hparse.
  assert (Hfail : forall P : Prop,
             (forall host port clientId connId,
                 ParseConnectionString server =
                   (host, port, clientId, connId, None) -> ~ P) ->
             P -> fails (ParseConnectionString server)).
  { intros P Hsucc HP. unfold fails.
    destruct (ParseConnectionString server) as [[[[h p] c] k] [e|]] eqn:E.
    - revert E. unfold ParseConnectionString. rewrite Hparse.
      repeat match goal with
             | |- context [if ?b then _ else _] => destruct b
             | |- context [let '(_, _) := ?a in _] => destruct a
             end;
        unfold invalid; intros E; inversion E; eexists; reflexivity.
    - exfalso. exact (Hsucc _ _ _ _ eq_refl HP). }
  assert (Hsame : forall host port clientId connId,
             ParseConnectionString server = (host, port, clientId, connId, None) ->
             host <> "" /\ port = url.Port u /\ port = "443"
             /\ nth 0 (strings.Split (last_segment u) "_") "" <> ""
             /\ strconv.Atoi (client_id_param u) = (clientId, None)
             /\ clientId <> 0 /\ connId <> "").
  { intros h p c k E.
    apply ParseConnectionString_success in E
      as (u' & Hu' & _ & Hh & Hp & Hp' & Hk & Hk' & Ha & Hc).
    rewrite Hparse in Hu'. injection Hu' as <-. rewrite <- Hk. auto 10. }
  split; [| split; [| split; [| split; [| split]]]].
  - intros connId suffix clientId Hhost Hport Hseg Hconn Hno Hatoi Hid.
    unfold ParseConnectionString. rewrite Hparse.
    apply String.eqb_neq in Hhost. rewrite Hhost.
    rewrite Hport. cbn [String.eqb Ascii.eqb Bool.eqb negb].
    pose proof (Split_length (url.Path u) "/") as Hlen.
    destruct (Nat.eqb_spec (List.length (strings.Split (url.Path u) "/")) 0)
      as [E0|_]; [lia|].
    unfold last_segment in Hseg. cbv zeta in Hseg. rewrite Hseg.
    change (connId ++ "_" ++ suffix) with (connId ++ String "_" suffix).
    rewrite (Split_at_first _ _ _ Hno).
    pose proof (Split_length suffix "_") as Hlen'.
    cbn [List.length nth].
    destruct (Nat.ltb_spec (S (List.length (strings.Split suffix "_"))) 2)
      as [Hlt|_]; [lia|].
    apply String.eqb_neq in Hconn. rewrite Hconn. cbn [orb].
    unfold client_id_param in Hatoi. rewrite Hatoi.
    apply Z.eqb_neq in Hid. rewrite Hid. reflexivity.
  - intros h p c k E. apply Hsame in E. tauto.
  - apply Hfail. intros h p c k E Hport. apply Hsame in E.
    destruct E as (_ & Hp & Hp' & _). congruence.
  - apply Hfail. intros h p c k E Hmissing. apply Hsame in E.
    destruct E as (_ & _ & _ & _ & Ha & _).
    rewrite Hmissing in Ha. discriminate Ha.
  - apply Hfail. intros h p c k E Hzero. apply Hsame in E.
    destruct E as (_ & _ & _ & _ & Ha & Hc & _).
    rewrite Ha in Hzero. cbn in Hzero. contradiction.
  - apply Hfail. intros h p c k E Hempty. apply Hsame in E.
    destruct E as (_ & _ & _ & Hk & _). contradiction.
Qed.

Lemma ParseConnectionString_descriptor_witness :
  ParseConnectionString "https://host:443/path/ABC_123?client_id=55" =
    ("host", "443", 55, "ABC", None)
  /\ fails (ParseConnectionString "https://host:8443/path/ABC_123?client_id=55")
  /\ fails (ParseConnectionString "https://host:443/path/ABC_123")
  /\ fails (ParseConnectionString "https://host:443/path/ABC_123?client_id=0")
  /\ fails (ParseConnectionString "https://host:443/path/_123?client_id=55").
Proof.
  split; [| split; [| split; [| split]]].
  - refine (proj1 (ParseConnectionString_descriptor
                     "https://host:443/path/ABC_123?client_id=55"
                     (url.mkURL "https" "" "host:443" "/path/ABC_123"
                                "client_id=55" "")
                     eq_refl)
                  "ABC" "123" 55 _ eq_refl eq_refl _ eq_refl eq_refl _);
      discriminate.
  - refine (proj1 (proj2 (proj2 (ParseConnectionString_descriptor
                     "https://host:8443/path/ABC_123?client_id=55"
                     (url.mkURL "https" "" "host:8443" "/path/ABC_123"
                                "client_id=55" "")
                     eq_refl))) _).
    discriminate.
  - exact (proj1 (proj2 (proj2 (proj2 (ParseConnectionString_descriptor
                     "https://host:443/path/ABC_123"
                     (url.mkURL "https" "" "host:443" "/path/ABC_123" "" "")
                     eq_refl)))) eq_refl).
  - exact (proj1 (proj2 (proj2 (proj2 (proj2 (ParseConnectionString_descriptor
                     "https://host:443/path/ABC_123?client_id=0"
                     (url.mkURL "https" "" "host:443" "/path/ABC_123"
                                "client_id=0" "")
                     eq_refl))))) eq_refl).
  - exact (proj2 (proj2 (proj2 (proj2 (proj2 (ParseConnectionString_descriptor
                     "https://host:443/path/_123?client_id=55"
                     (url.mkURL "https" "" "host:443" "/path/_123"
                                "client_id=55" "")
                     eq_refl))))) eq_refl).
Defined.

(** A client id below zero passes: the parse succeeds with a client id that is
    not positive.  And port 443, a well-formed last segment and a positive
    client id do not suffice: without a host the parse fails. *)
Lemma ParseConnectionString_negative_client_id :
  ParseConnectionString "https://host:443/path/ABC_123?client_id=-5" =
    ("host", "443", -5, "ABC", None)
  /\ ~ 0 < -5
  /\ ParseConnectionString "https://:443/path/ABC_123?client_id=55" =
       invalid "invalid host".
Proof. split; [reflexivity | split; [lia | reflexivity]]. Qed.

(** *** Stopping the session *)

Lemma stop_message (code : Z) (message : string) :
  fmt.Errorf "cannot stop command. API Code %d with message %s"
    [fmt.Int code; fmt.Str message] =
  "cannot stop command. API Code " ++ strconv.Itoa code ++ " with message "
  ++ message.
Proof.
  rewrite <- (append_empty_r message) at 2. reflexivity.
Qed.

(** The request [StopCommand] sends, when its URL parses. *)
Lemma StopCommand_cases (do : Request -> reply CommandResponse)
  (cc : ClientCredentials) (commandId : Z) :
  (exists err,
      StopCommand do cc commandId = ([], Returns (Some err)))
  \/ (exists req,
         fst (StopCommand do cc commandId) = [req]
         /\ snd (StopCommand do cc commandId) =
              match status_check (do req) with
              | Panics msg => Panics msg
              | Returns (true, resp) =>
                  Returns (Some
                    (fmt.Errorf "cannot stop command. HTTP Status Code %d"
                       [fmt.Int (http.StatusCode resp)]))
              | Returns (false, resp) =>
                  match Payload resp with
                  | ReadError err => Returns (Some err)
                  | DecodeError err => Returns (Some err)
                  | Decoded result =>
                      if negb (Code result =? 902)%Z then
                        Returns (Some
                          (fmt.Errorf
                             "cannot stop command. API Code %d with message %s"
                             [fmt.Int (Code result); fmt.Str (Message result)]))
                      else Returns None
                  end
              end).
Proof.
  unfold StopCommand, CreatePollingURI.
  destruct (NewRequest _ _ _) as [req | err].
  - right. eexists. split; reflexivity.
  - left. eexists. reflexivity.
Qed.

(** C4.  Stopping succeeds exactly when a request went out, the transport
    gave a response and no error, the status is 200 and the decoded code is
    902.  With the transport fine and the status 200, any other decoded code
    gives an error that carries the code and the message. *)
Theorem StopCommand_succeeds_iff_902 (do : Request -> reply CommandResponse)
  (cc : ClientCredentials) (commandId : Z) :
  (snd (StopCommand do cc commandId) = Returns None <->
   exists req resp result,
     fst (StopCommand do cc commandId) = [req]
     /\ do req = (Some resp, None)
     /\ http.StatusCode resp = 200
     /\ Payload resp = Decoded result
     /\ Code result = 902)
  /\ (forall req resp result,
         fst (StopCommand do cc commandId) = [req] ->
         do req = (Some resp, None) ->
         http.StatusCode resp = 200 ->
         Payload resp = Decoded result ->
         Code result <> 902 ->
         snd (StopCommand do cc commandId) =
           Returns (Some ("cannot stop command. API Code "
                          ++ strconv.Itoa (Code result) ++ " with message "
                          ++ Message result))).
Proof.
  destruct (StopCommand_cases do cc commandId) as [[err E] | [req [Hsent Hres]]].
  - rewrite E. cbn [fst snd]. split.
    + split; [discriminate|]. intros (? & ? & ? & H & _). discriminate H.
    + intros ? ? ? H. discriminate H.
  - rewrite Hsent, Hres. clear Hsent Hres. split.
    + split.
      * unfold status_check.
        destruct (do req) as [[resp|] err] eqn:Hdo; [|discriminate].
        destruct (Z.eqb_spec (http.StatusCode resp) StatusOK) as [Hst|];
          cbn [negb orb]; [|discriminate].
        destruct err; cbn [not_nil]; [discriminate|].
        destruct (Payload resp) as [| |result] eqn:Hp; try discriminate.
        destruct (Z.eqb_spec (Code result) 902) as [Hc|]; cbn [negb];
          [|discriminate].
        intros _. exists req, resp, result. repeat split; assumption.
      * intros (req' & resp & result & Hreq & Hdo & Hst & Hp & Hc).
        injection Hreq as <-. rewrite Hdo. unfold status_check, StatusOK.
        rewrite Hst, Hp, Hc. reflexivity.
    + intros req' resp result Hreq Hdo Hst Hp Hc.
      injection Hreq as <-. rewrite Hdo. unfold status_check, StatusOK.
      rewrite Hst, Hp. cbn [Z.eqb Pos.eqb negb orb not_nil].
      apply Z.eqb_neq in Hc. rewrite Hc. cbn [negb].
      now rewrite stop_message.
Qed.

Lemma StopCommand_succeeds_iff_902_witness :
  let cc := mkCredentials "u011" "tok" "owl" 12345 67890 11111 in
  let answer code message : Request -> reply CommandResponse :=
    fun _ => (Some (mkResponse 200
                      (Decoded (mkCommandResponse code 0 message false))),
              None) in
  snd (StopCommand (answer 902 "") cc 77) = Returns None
  /\ snd (StopCommand (answer 900 "busy") cc 77) =
       Returns (Some "cannot stop command. API Code 900 with message busy").
Proof.
  intros cc answer. split.
  - apply (proj1 (StopCommand_succeeds_iff_902 (answer 902 "") cc 77)).
    do 3 eexists. repeat split.
  - eapply (proj2 (StopCommand_succeeds_iff_902 (answer 900 "busy") cc 77))
      with (result := mkCommandResponse 900 0 "busy" false);
      try reflexivity.
    cbn. discriminate.
Defined.

(** *** Transport errors *)

Lemma poll_loop_transport_error (cc : ClientCredentials) (uri : string)
  (req : Request) (e : error) (before later : list poll_event) :
  NewRequest "GET" uri "" = inl req ->
  Forall keeps_polling before ->
  forall sent,
    snd (poll_loop cc uri (before ++ Tick (transport_error e) :: later) sent) =
      Finished (Panics nil_dereference).
Proof.
  intros Hreq Hbefore.
  induction Hbefore as [|ev before (do & -> & Hdo) _ IH]; intros sent;
    cbn [app poll_loop]; rewrite Hreq.
  - reflexivity.
  - destruct (Hdo (SetRequestHeaders req (ApiToken cc))) as (result & -> & Hgo).
    cbn. rewrite Hgo. apply IH.
Qed.

(** C2, at a transport error.  When [client.Do] returns no response and an
    error, each of the three operations, once its request has gone out, panics
    on the nil response; none returns its error value.  For the poll this is
    so at the first tick and at any tick after ticks at which it went on. *)
Theorem transport_error_panics (e : error) (cc : ClientCredentials)
  (commandId pollInterval : Z) (before later : list poll_event) :
  let events := (before ++ Tick (transport_error e) :: later)%list in
  (fst (InitiateLiveView (transport_error e) cc) <> [] ->
   snd (InitiateLiveView (transport_error e) cc) = Panics nil_dereference)
  /\ (Forall keeps_polling before ->
      fst (PollCommand events cc commandId pollInterval) <> [] ->
      snd (PollCommand events cc commandId pollInterval) =
        Finished (Panics nil_dereference))
  /\ (fst (StopCommand (transport_error e) cc commandId) <> [] ->
      snd (StopCommand (transport_error e) cc commandId) =
        Panics nil_dereference).
Proof.
  intros events. subst events. split; [| split].
  - unfold InitiateLiveView.
    destruct (CreateLiveViewURI cc) as [uri [err|]]; [now cbn|].
    destruct (NewRequest _ _ _) as [req|err]; [reflexivity | now cbn].
  - intros Hbefore. unfold PollCommand, CreatePollingURI.
    destruct (_ <=? 0)%Z; [now cbn|].
    destruct (NewRequest "GET"
                (fmt.Sprintf (BASE_URL ++ "/network/%d/command/%d")
                   [fmt.Str (Region cc); fmt.Int (NetworkId cc);
                    fmt.Int commandId]) "") as [req|err] eqn:Hreq.
    + intros _. now apply poll_loop_transport_error with (req := req).
    + intros Hsent. exfalso. apply Hsent.
      destruct before as [|ev before]; cbn [app poll_loop].
      * now rewrite Hreq.
      * inversion Hbefore as [|? ? (do & -> & _) _]; subst.
        cbn [poll_loop]. now rewrite Hreq.
  - unfold StopCommand, CreatePollingURI.
    destruct (NewRequest _ _ _) as [req|err]; [reflexivity | now cbn].
Qed.

Lemma transport_error_panics_witness :
  let cc := mkCredentials "u011" "tok" "camera" 12345 67890 11111 in
  let e := "dial tcp 203.0.113.7:443: connect: connection refused" in
  snd (InitiateLiveView (transport_error e) cc) = Panics nil_dereference
  /\ snd (PollCommand [Tick (command_status 0 ""); Tick (transport_error e)]
            cc 77 5) = Finished (Panics nil_dereference)
  /\ snd (StopCommand (transport_error e) cc 77) = Panics nil_dereference.
Proof.
  intros cc e.
  destruct (transport_error_panics e cc 77 5 [Tick (command_status 0 "")] [])
    as (Hstart & Hpoll & Hstop).
  split; [| split].
  - apply Hstart. discriminate.
  - apply Hpoll; [|discriminate].
    constructor; [|constructor].
    exists (command_status 0 ""). split; [reflexivity|].
    intros req. eexists. split; reflexivity.
  - apply Hstop. discriminate.
Defined.

(** A ticker cannot be made for a polling interval that is not positive. *)
Example PollCommand_interval_zero (events : list poll_event)
  (cc : ClientCredentials) (commandId : Z) :
  PollCommand events cc commandId 0 =
    ([], Finished (Panics "non-positive interval for NewTicker")).
Proof. reflexivity. Qed.

End CommandLifecycleAdapter.

Section StreamTransport.

Import transport expected.

Lemma deadlines_of_reads_leaving (current : option Duration)
  (events : list event) (msg : string) :
  deadlines_of_reads current (events ++ [Log msg; Close]) =
    deadlines_of_reads current events
  /\ reads (events ++ [Log msg; Close]) = reads events.
Proof.
  revert current.
  induction events as [|ev events IH]; intros current; [split; reflexivity|].
  destruct ev; cbn [app deadlines_of_reads reads];
    destruct (IH current) as [IHd IHr]; rewrite ?IHr; try (split; auto; fail).
  - destruct (IH (Some timeout)) as [IHd' _]. now rewrite IHd'.
  - now rewrite IHd.
Qed.

Example Stream_slow_then_fast :
  let config :=
    mkStreamConfig 0 0 (15 * Second) (1 * Second) blinkSend.SendPing
      (fun conn => blinkSend.SendAuthFrames conn "ABC" 55) in
  let env :=
    mkSession (inl (healthy "203.0.113.7:443")) 0
      [arrives [x47] (14 * Second); arrives [x47; x40] (14 * Second + 1);
       arrives [x00] (14 * Second + 2); times_out (16 * Second + 2)] in
  deadlines_of_reads None (fst (Stream env config "host" "443")) =
    [Some (15 * Second); Some (2 * Second); Some (2 * Second);
     Some (2 * Second)]
  /\ snd (Stream env config "host" "443") =
       Finished (Some "read timeout: i/o timeout").
Proof. split; reflexivity. Qed.

End StreamTransport.

Section ClientStateMachine.

Import http blinkAdapter liveview expected.

(** What [Connect] does when the session cannot be started. *)
Lemma Connect_start_failure (do : Request -> reply LiveviewResponse)
  (writer : nat) (c : Client) (w : World) (err : error) :
  connected (state c) = false ->
  snd (InitiateLiveView do (credentials c)) = Returns (None, Some err) ->
  Connect do writer c w =
    Returns (Some ("error during connect: " ++ err), c,
             send w (fst (InitiateLiveView do (credentials c)))).
Proof.
  intros Hc Hstart. unfold Connect. rewrite Hc.
  destruct (InitiateLiveView do (credentials c)) as [sent started].
  cbn [fst snd] in *. subst started. cbn [bind].
  unfold fmt.Errorf. cbn [fmt.Sprintf fmt.format_arg Ascii.eqb Bool.eqb orb].
  now rewrite append_empty_r.
Qed.

(** C7.  On a connected client [Connect] returns the already-connected error
    and touches nothing: the client and the world, with its list of requests,
    are as before.  So it is after a [Connect] that succeeded. *)
Theorem Connect_twice (do : Request -> reply LiveviewResponse) (writer : nat)
  (c : Client) (w : World) :
  (connected (state c) = true ->
   Connect do writer c w = Returns (Some AlreadyConnected, c, w))
  /\ (forall do0 writer0 c0 w0,
         Connect do0 writer0 c0 w0 = Returns (None, c, w) ->
         Connect do writer c w = Returns (Some AlreadyConnected, c, w)).
Proof.
  assert (H : connected (state c) = true ->
              Connect do writer c w = Returns (Some AlreadyConnected, c, w)).
  { intros Hc. unfold Connect. now rewrite Hc. }
  split; [exact H|].
  intros do0 writer0 c0 w0 Hfirst. apply H.
  revert Hfirst. unfold Connect.
  destruct (connected (state c0)); [discriminate|].
  destruct (InitiateLiveView do0 (credentials c0)) as [sent [[[resp|] [err|]]|msg]];
    cbn [bind]; try discriminate.
  destruct (WithCancel (send w0 sent)) as [ctx w1].
  destruct (ParseConnectionString (Server resp)) as [[[[host port] clientId] connId] [err|]];
    [discriminate|].
  intros E. injection E as <- _. reflexivity.
Qed.

Lemma Connect_twice_witness :
  let c0 := NewClient "u011" "tok" "owl" 12345 67890 11111 in
  let start :=
    session_started 7 5 "https://host:443/path/ABC_123?client_id=55" in
  exists c1 w1,
    Connect start 0 c0 quiet = Returns (None, c1, w1)
    /\ List.length (requests w1) = 1%nat
    /\ Connect start 0 c1 w1 = Returns (Some AlreadyConnected, c1, w1).
Proof.
  intros c0 start. do 2 eexists.
  split; [reflexivity|]. split; [reflexivity|].
  apply (proj1 (Connect_twice start 0 _ _)). reflexivity.
Defined.

(** C8.  On a client that is not connected [Disconnect] returns nil and
    touches nothing: no request is sent, the client and the world are as
    before.  So a [Disconnect] after a [Disconnect] is a no-op. *)
Theorem Disconnect_idempotent (do : Request -> reply CommandResponse)
  (c : Client) (w : World) :
  (connected (state c) = false ->
   Disconnect do c w = Returns (None, c, w))
  /\ (forall do0 c0 w0 err,
         Disconnect do0 c0 w0 = Returns (err, c, w) ->
         Disconnect do c w = Returns (None, c, w)).
Proof.
  assert (H : connected (state c) = false ->
              Disconnect do c w = Returns (None, c, w)).
  { intros Hc. unfold Disconnect. now rewrite Hc. }
  split; [exact H|].
  intros do0 c0 w0 err Hfirst. apply H.
  revert Hfirst. unfold Disconnect.
  destruct (connected (state c0)) eqn:Hc0; cbn [negb].
  - destruct (streamCancel (state c0)) as [ctx|]; [|discriminate].
    destruct (StopCommand do0 (credentials c0) (lvCommandId (state c0)))
      as [sent [[e|]|msg]]; cbn [bind]; try discriminate;
      intros E; injection E as _ <- _; reflexivity.
  - intros E. injection E as _ <- _. exact Hc0.
Qed.

Lemma Disconnect_idempotent_witness :
  let c0 := NewClient "u011" "tok" "owl" 12345 67890 11111 in
  let start :=
    session_started 7 5 "https://host:443/path/ABC_123?client_id=55" in
  Disconnect (command_status 902 "") c0 quiet = Returns (None, c0, quiet)
  /\ exists c1 w1 c2 w2,
       Connect start 0 c0 quiet = Returns (None, c1, w1)
       /\ Disconnect (command_status 902 "") c1 w1 = Returns (None, c2, w2)
       /\ List.length (requests w2) = 2%nat
       /\ Disconnect (command_status 902 "") c2 w2 = Returns (None, c2, w2).
Proof.
  intros c0 start. split.
  - apply (proj1 (Disconnect_idempotent (command_status 902 "") c0 quiet)).
    reflexivity.
  - do 4 eexists.
    split; [reflexivity|]. split; [reflexivity|]. split; [reflexivity|].
    apply (proj1 (Disconnect_idempotent (command_status 902 "") _ _)).
    reflexivity.
Defined.

(** C1, at a connection string that does not parse.  When the session starts
    but the server URI of the answer is turned away, [Connect] returns the
    parse error, and yet the client is marked connected, holds the command id,
    and the poll goroutine it started runs on under a context no one has
    cancelled. *)
Theorem Connect_parse_failure_stays_connected
  (do : Request -> reply LiveviewResponse) (writer : nat) (c : Client)
  (w : World) (sent : list Request) (resp : LiveviewResponse) (err : error) :
  connected (state c) = false ->
  is_cancelled w (contexts w) = false ->
  InitiateLiveView do (credentials c) = (sent, Returns (Some resp, None)) ->
  snd (ParseConnectionString (Server resp)) = Some err ->
  exists c' w',
    Connect do writer c w =
      Returns (Some ("error during connect: parsing connection string: " ++ err),
               c', w')
    /\ IsConnected c' = true
    /\ lvCommandId (state c') = CommandId resp
    /\ goroutines w' =
         (goroutines w ++
          [GoPollCommand (contexts w) (credentials c) (CommandId resp)
             (PollingInterval resp)])%list
    /\ running w' (GoPollCommand (contexts w) (credentials c) (CommandId resp)
                     (PollingInterval resp)) = true.
Proof.
  intros Hc Hfresh Hstart Hparse.
  unfold Connect. rewrite Hc, Hstart. cbn [bind WithCancel send].
  destruct (ParseConnectionString (Server resp))
    as [[[[host port] clientId] connId] [err'|]];
    cbn [snd] in Hparse; [|discriminate].
  injection Hparse as ->.
  do 2 eexists. split.
  - unfold fmt.Errorf.
    cbn [fmt.Sprintf fmt.format_arg Ascii.eqb Bool.eqb orb].
    rewrite append_empty_r. reflexivity.
  - split; [reflexivity|]. split; [reflexivity|]. split; [reflexivity|].
    unfold running, is_cancelled in *.
    cbn [context_of go send cancelled]. now rewrite Hfresh.
Qed.

Lemma Connect_parse_failure_stays_connected_witness :
  let c0 := NewClient "u011" "tok" "owl" 12345 67890 11111 in
  let start :=
    session_started 7 5 "https://host:8443/path/ABC_123?client_id=55" in
  exists c1 w1,
    Connect start 0 c0 quiet =
      Returns (Some ("error during connect: parsing connection string: "
                     ++ "unexpected port 8443. Expecting 443"), c1, w1)
    /\ IsConnected c1 = true
    /\ lvCommandId (state c1) = 7
    /\ goroutines w1 = [GoPollCommand 0 (credentials c0) 7 5]
    /\ running w1 (GoPollCommand 0 (credentials c0) 7 5) = true.
Proof.
  intros c0 start.
  exact (Connect_parse_failure_stays_connected start 0 c0 quiet
           (fst (InitiateLiveView start (credentials c0)))
           (mkLiveviewResponse 7 5 "https://host:8443/path/ABC_123?client_id=55")
           "unexpected port 8443. Expecting 443"
           eq_refl eq_refl eq_refl eq_refl).
Defined.

End ClientStateMachine.

(** * Further properties of the adapter *)

Section AdapterRequests.

Import http blinkAdapter expected observed.

Lemma NewRequest_parts (method uri body : string) (req : Request) :
  NewRequest method uri body = inl req -> req = mkRequest method uri [] body.
Proof.
  unfold NewRequest. destruct (url.Parse uri); [|discriminate].
  intros H. now injection H as <-.
Qed.

Lemma SetRequestHeaders_fresh (cc : ClientCredentials)
  (method uri body : string) :
  sent_as cc method uri body
    (SetRequestHeaders (mkRequest method uri [] body) (ApiToken cc)).
Proof.
  unfold sent_as, authenticated. repeat split.
  unfold SetRequestHeaders, Header_Set. cbn.
  now rewrite append_empty_r.
Qed.

Lemma CreatePollingURI_text (cc : ClientCredentials) (commandId : Z) :
  CreatePollingURI cc commandId = (polling_uri cc commandId, None).
Proof.
  unfold CreatePollingURI, polling_uri. f_equal.
  rewrite <- (append_empty_r (strconv.Itoa commandId)). reflexivity.
Qed.

Lemma poll_loop_sent (cc : ClientCredentials) (uri : string)
  (P : Request -> Prop) :
  (forall req, NewRequest "GET" uri "" = inl req ->
               P (SetRequestHeaders req (ApiToken cc))) ->
  forall events sent,
    Forall P sent -> Forall P (fst (poll_loop cc uri events sent)).
Proof.
  intros HP. induction events as [|ev later IH]; intros sent Hsent;
    [exact Hsent|].
  destruct ev as [|do]; cbn [poll_loop]; [exact Hsent|].
  destruct (NewRequest "GET" uri "") as [req|err] eqn:Hreq; [|exact Hsent].
  assert (Hsent' : Forall P (sent ++ [SetRequestHeaders req (ApiToken cc)])).
  { apply Forall_app. split; [exact Hsent|]. constructor; [|constructor].
    now apply HP. }
  destruct (status_check (do (SetRequestHeaders req (ApiToken cc))))
    as [[[|] resp]|msg]; cbn [fst]; try exact Hsent'.
  destruct (Payload resp) as [e|e|result]; try exact Hsent'.
  destruct (Complete result); [exact Hsent'|]. now apply IH.
Qed.

(** X1.  Whatever the answers, every request the adapter sends carries the
    locale, the bearer token of the credentials and the JSON content type:
    the start is a POST of the intent to the live-view URI, each poll a GET of
    the poll URI of the command, the stop a POST to that URI followed by
    [/done].  Start and stop send at most one request. *)
Theorem adapter_requests_authenticated
  (start : Request -> reply LiveviewResponse)
  (stop : Request -> reply CommandResponse) (events : list poll_event)
  (cc : ClientCredentials) (commandId pollInterval : Z) :
  Forall (sent_as cc "POST" (fst (CreateLiveViewURI cc)) intent_liveview)
    (fst (InitiateLiveView start cc))
  /\ Forall (sent_as cc "GET" (polling_uri cc commandId) "")
       (fst (PollCommand events cc commandId pollInterval))
  /\ Forall (sent_as cc "POST" (polling_uri cc commandId ++ "/done") "")
       (fst (StopCommand stop cc commandId))
  /\ (List.length (fst (InitiateLiveView start cc)) <= 1)%nat
  /\ (List.length (fst (StopCommand stop cc commandId)) <= 1)%nat.
Proof.
  split; [| split; [| split; [| split]]].
  - unfold InitiateLiveView.
    destruct (CreateLiveViewURI cc) as [uri [err|]]; [constructor|].
    destruct (NewRequest _ _ _) as [req|err] eqn:Hreq; [|constructor].
    apply NewRequest_parts in Hreq. subst req. cbn [fst].
    constructor; [|constructor]. apply SetRequestHeaders_fresh.
  - unfold PollCommand. rewrite CreatePollingURI_text.
    destruct (_ <=? 0)%Z; [constructor|].
    apply poll_loop_sent; [|constructor].
    intros req Hreq. apply NewRequest_parts in Hreq. subst req.
    apply SetRequestHeaders_fresh.
  - unfold StopCommand. rewrite CreatePollingURI_text.
    destruct (NewRequest _ _ _) as [req|err] eqn:Hreq; [|constructor].
    apply NewRequest_parts in Hreq. subst req. cbn [fst].
    constructor; [|constructor]. apply SetRequestHeaders_fresh.
  - unfold InitiateLiveView.
    destruct (CreateLiveViewURI cc) as [uri [err|]]; [cbn; lia|].
    destruct (NewRequest _ _ _); cbn; lia.
  - unfold StopCommand. rewrite CreatePollingURI_text.
    destruct (NewRequest _ _ _); cbn; lia.
Qed.

End AdapterRequests.

Section PollLoop.

Import http blinkAdapter expected observed.

Lemma ticker_starts (pollInterval : Z) :
  ticks pollInterval -> (wrap64 (pollInterval * Second) <=? 0)%Z = false.
Proof.
  unfold ticks, wrap64, blinkAdapter.Second. intros H.
  apply Z.leb_gt.
  rewrite Z.mod_small; change (2 ^ 63) with 9223372036854775808;
    change (2 ^ 64) with 18446744073709551616; lia.
Qed.

Lemma NewRequest_of_Parse (method uri body : string) (u : url.URL) :
  url.Parse uri = inl u ->
  NewRequest method uri body = inl (mkRequest method uri [] body).
Proof. unfold NewRequest. now intros ->. Qed.

(** Over ticks at which the poll goes on, the loop sends one request each and
    carries on with the rest of the script. *)
Lemma poll_loop_goes_on (cc : ClientCredentials) (uri : string) (req : Request)
  (before rest : list poll_event) :
  NewRequest "GET" uri "" = inl req ->
  Forall keeps_polling before ->
  forall sent,
    poll_loop cc uri (before ++ rest) sent =
    poll_loop cc uri rest
      (sent ++ repeat (SetRequestHeaders req (ApiToken cc))
                      (List.length before)).
Proof.
  intros Hreq Hbefore.
  induction Hbefore as [|ev before (do & -> & Hdo) _ IH]; intros sent.
  - cbn [app List.length repeat]. now rewrite app_nil_r.
  - cbn [app poll_loop List.length repeat]. rewrite Hreq.
    destruct (Hdo (SetRequestHeaders req (ApiToken cc))) as (result & -> & Hgo).
    cbn [status_check http.StatusCode Payload]. unfold StatusOK.
    cbn [Z.eqb Pos.eqb negb orb not_nil]. rewrite Hgo, IH.
    f_equal. now rewrite <- app_assoc.
Qed.

(** X2.  Cancellation is not an error: when the context is done after any
    number of ticks at which the poll went on, [PollCommand] returns nil,
    having sent one request per tick; what would have come later plays no
    part. *)
Theorem PollCommand_until_cancelled (cc : ClientCredentials)
  (commandId pollInterval : Z) (u : url.URL)
  (before later : list poll_event) :
  ticks pollInterval ->
  url.Parse (polling_uri cc commandId) = inl u ->
  Forall keeps_polling before ->
  snd (PollCommand (before ++ CtxDone :: later) cc commandId pollInterval) =
    Finished (Returns None)
  /\ List.length
       (fst (PollCommand (before ++ CtxDone :: later) cc commandId pollInterval))
     = List.length before.
Proof.
  intros Hticks Hparse Hbefore.
  unfold PollCommand. rewrite (ticker_starts _ Hticks), CreatePollingURI_text.
  rewrite (poll_loop_goes_on cc _ _ before (CtxDone :: later)
             (NewRequest_of_Parse "GET" _ "" u Hparse) Hbefore).
  cbn [poll_loop fst snd app]. split; [reflexivity|].
  apply repeat_length.
Qed.

Lemma PollCommand_until_cancelled_witness :
  let cc := mkCredentials "u011" "tok" "owl" 12345 67890 11111 in
  let events :=
    [Tick (command_status 0 ""); Tick (command_status 0 ""); CtxDone;
     Tick (transport_error "unreachable")] in
  snd (PollCommand events cc 77 5) = Finished (Returns None)
  /\ List.length (fst (PollCommand events cc 77 5)) = 2%nat.
Proof.
  intros cc events.
  refine (PollCommand_until_cancelled cc 77 5 _
            [Tick (command_status 0 ""); Tick (command_status 0 "")]
            [Tick (transport_error "unreachable")] _ eq_refl _).
  - unfold ticks. lia.
  - repeat constructor;
      (exists (command_status 0 ""); split; [reflexivity|];
       intros req; eexists; split; reflexivity).
Defined.

(** X3.  The poll has no end of its own: as long as every tick is answered
    with status 200 and a command that is not complete, [PollCommand] is still
    in its loop, one request sent per tick. *)
Theorem PollCommand_keeps_waiting (cc : ClientCredentials)
  (commandId pollInterval : Z) (u : url.URL) (events : list poll_event) :
  ticks pollInterval ->
  url.Parse (polling_uri cc commandId) = inl u ->
  Forall keeps_polling events ->
  snd (PollCommand events cc commandId pollInterval) = Waiting
  /\ List.length (fst (PollCommand events cc commandId pollInterval)) =
       List.length events.
Proof.
  intros Hticks Hparse Hevents.
  unfold PollCommand. rewrite (ticker_starts _ Hticks), CreatePollingURI_text.
  rewrite <- (app_nil_r events) at 1 2.
  rewrite (poll_loop_goes_on cc _ _ events []
             (NewRequest_of_Parse "GET" _ "" u Hparse) Hevents).
  cbn [poll_loop fst snd app]. split; [reflexivity|].
  apply repeat_length.
Qed.

Lemma PollCommand_keeps_waiting_witness :
  let cc := mkCredentials "u011" "tok" "owl" 12345 67890 11111 in
  let events := repeat (Tick (command_status 0 "")) 3 in
  snd (PollCommand events cc 77 5) = Waiting
  /\ List.length (fst (PollCommand events cc 77 5)) = 3%nat.
Proof.
  intros cc events.
  refine (PollCommand_keeps_waiting cc 77 5 _ events _ eq_refl _).
  - unfold ticks. lia.
  - repeat constructor;
      (exists (command_status 0 ""); split; [reflexivity|];
       intros req; eexists; split; reflexivity).
Defined.

Lemma polling_status_message (status : Z) :
  fmt.Errorf "error polling command. HTTP Status Code %d" [fmt.Int status] =
  "error polling command. HTTP Status Code " ++ strconv.Itoa status.
Proof.
  rewrite <- (append_empty_r (strconv.Itoa status)). reflexivity.
Qed.

(** X4.  After any number of ticks at which the poll went on, an answer whose
    status is not 200 ends [PollCommand] with an error that carries the
    status, and an answer with status 200 whose command is complete ends it
    with the error that the command is complete.  The poll does not try
    again: the request of that tick is its last. *)
Theorem PollCommand_ends_in_error (cc : ClientCredentials)
  (commandId pollInterval status : Z) (u : url.URL) (result : CommandResponse)
  (before later : list poll_event) :
  ticks pollInterval ->
  url.Parse (polling_uri cc commandId) = inl u ->
  Forall keeps_polling before ->
  let run := PollCommand (before ++ answers status result :: later) cc
               commandId pollInterval in
  (status <> 200 ->
   snd run = Finished (Returns (Some
     ("error polling command. HTTP Status Code " ++ strconv.Itoa status)))
   /\ List.length (fst run) = S (List.length before))
  /\ (status = 200 -> Complete result = true ->
      snd run = Finished (Returns (Some
        "command marked as complete. Cannot poll further"))
      /\ List.length (fst run) = S (List.length before)).
Proof.
  intros Hticks Hparse Hbefore run. subst run.
  unfold PollCommand. rewrite (ticker_starts _ Hticks), CreatePollingURI_text.
  rewrite (poll_loop_goes_on cc _ _ before (answers status result :: later)
             (NewRequest_of_Parse "GET" _ "" u Hparse) Hbefore).
  unfold answers. cbn [poll_loop app].
  rewrite (NewRequest_of_Parse "GET" _ "" u Hparse).
  cbn [status_check http.StatusCode Payload not_nil orb]. unfold StatusOK.
  split.
  - intros Hst. apply Z.eqb_neq in Hst. rewrite Hst. cbn [negb orb fst snd].
    split; [now rewrite polling_status_message|].
    rewrite length_app, repeat_length. cbn. lia.
  - intros -> Hc. rewrite Hc. cbn [Z.eqb Pos.eqb negb orb fst snd].
    split; [reflexivity|].
    rewrite length_app, repeat_length. cbn. lia.
Qed.

Lemma PollCommand_ends_in_error_witness :
  let cc := mkCredentials "u011" "tok" "owl" 12345 67890 11111 in
  let going := Tick (command_status 0 "") in
  snd (PollCommand [going; answers 503 (mkCommandResponse 0 0 "" false); going]
         cc 77 5) =
    Finished (Returns (Some "error polling command. HTTP Status Code 503"))
  /\ snd (PollCommand [going; answers 200 (mkCommandResponse 0 0 "" true); going]
            cc 77 5) =
       Finished (Returns (Some "command marked as complete. Cannot poll further")).
Proof.
  intros cc going.
  assert (Hgoing : Forall keeps_polling [going]).
  { repeat constructor. exists (command_status 0 ""). split; [reflexivity|].
    intros req. eexists. split; reflexivity. }
  assert (Hticks : ticks 5) by (unfold ticks; lia).
  split.
  - refine (proj1 (proj1 (PollCommand_ends_in_error cc 77 5 503 _
                            (mkCommandResponse 0 0 "" false) [going] [going]
                            Hticks eq_refl Hgoing) _)).
    discriminate.
  - exact (proj1 (proj2 (PollCommand_ends_in_error cc 77 5 200 _
                           (mkCommandResponse 0 0 "" true) [going] [going]
                           Hticks eq_refl Hgoing) eq_refl eq_refl)).
Defined.

(** X5.  A polling interval that is zero or negative cannot be polled at: the
    ticker cannot be made, and [PollCommand] panics before it sends anything,
    whatever the events. *)
Theorem PollCommand_interval_not_positive (events : list poll_event)
  (cc : ClientCredentials) (commandId pollInterval : Z) :
  - 9223372036 <= pollInterval <= 0 ->
  PollCommand events cc commandId pollInterval =
    ([], Finished (Panics "non-positive interval for NewTicker")).
Proof.
  intros H. unfold PollCommand.
  assert (E : (wrap64 (pollInterval * blinkAdapter.Second) <=? 0)%Z = true).
  { apply Z.leb_le. unfold wrap64, blinkAdapter.Second.
    rewrite Z.mod_small; change (2 ^ 63) with 9223372036854775808;
      change (2 ^ 64) with 18446744073709551616; lia. }
  now rewrite E.
Qed.

Lemma PollCommand_interval_not_positive_witness :
  PollCommand [CtxDone] (mkCredentials "u011" "tok" "owl" 12345 67890 11111)
    77 (-1) =
    ([], Finished (Panics "non-positive interval for NewTicker")).
Proof. apply PollCommand_interval_not_positive. lia. Defined.

End PollLoop.

Section StartSession.

Import http blinkAdapter expected observed.

(** X6.  [InitiateLiveView] returns a session descriptor exactly when its
    request went out, the transport gave a response and no error, the status
    is 200 and the body decodes to a descriptor whose command id is not zero;
    the descriptor returned is the decoded one.  It never returns a descriptor
    together with an error, nor neither of them. *)
Theorem InitiateLiveView_succeeds_iff (do : Request -> reply LiveviewResponse)
  (cc : ClientCredentials) :
  (forall result,
      snd (InitiateLiveView do cc) = Returns (Some result, None) <->
      exists req resp,
        fst (InitiateLiveView do cc) = [req]
        /\ do req = (Some resp, None)
        /\ http.StatusCode resp = 200
        /\ Payload resp = Decoded result
        /\ CommandId result <> 0)
  /\ snd (InitiateLiveView do cc) <> Returns (None, None)
  /\ (forall result err,
         snd (InitiateLiveView do cc) <> Returns (Some result, Some err)).
Proof.
  unfold InitiateLiveView.
  destruct (CreateLiveViewURI cc) as [uri [err|]].
  { cbn [fst snd]. split; [|split]; try discriminate.
    intros result. split; [discriminate|].
    intros (? & ? & H & _). discriminate H. }
  destruct (NewRequest _ _ _) as [req0|err].
  2:{ cbn [fst snd]. split; [|split]; try discriminate.
      intros result. split; [discriminate|].
      intros (? & ? & H & _). discriminate H. }
  cbn [fst snd]. set (req := SetRequestHeaders req0 (ApiToken cc)).
  unfold status_check, StatusOK.
  destruct (do req) as [[resp|] err] eqn:Hdo.
  2:{ split; [|split]; try discriminate.
      intros result. split; [discriminate|].
      intros (req' & resp & Hreq & Hdo' & _).
      injection Hreq as <-. rewrite Hdo in Hdo'. discriminate Hdo'. }
  destruct (Z.eqb_spec (http.StatusCode resp) 200) as [Hst|Hst];
    destruct err as [e|]; cbn [negb orb not_nil];
    try (split; [|split]; try discriminate;
         intros result; split; [discriminate|];
         intros (req' & resp' & Hreq & Hdo' & Hst' & _);
         injection Hreq as <-; rewrite Hdo in Hdo';
         injection Hdo' as <-; try discriminate; contradiction).
  destruct (Payload resp) as [e|e|decoded] eqn:Hp;
    try (split; [|split]; try discriminate;
         intros result; split; [discriminate|];
         intros (req' & resp' & Hreq & Hdo' & _ & Hp' & _);
         injection Hreq as <-; rewrite Hdo in Hdo';
         injection Hdo' as <-; rewrite Hp in Hp'; discriminate Hp').
  destruct (Z.eqb_spec (CommandId decoded) 0) as [Hz|Hz].
  - split; [|split]; try discriminate.
    intros result. split; [discriminate|].
    intros (req' & resp' & Hreq & Hdo' & _ & Hp' & Hid).
    injection Hreq as <-. rewrite Hdo in Hdo'. injection Hdo' as <-.
    rewrite Hp in Hp'. injection Hp' as <-. contradiction.
  - split; [|split]; try discriminate.
    intros result. split.
    + intros H. injection H as <-. exists req, resp. auto.
    + intros (req' & resp' & Hreq & Hdo' & _ & Hp' & Hid).
      injection Hreq as <-. rewrite Hdo in Hdo'. injection Hdo' as <-.
      rewrite Hp in Hp'. injection Hp' as <-. reflexivity.
Qed.

Lemma InitiateLiveView_succeeds_iff_witness :
  let cc := mkCredentials "u011" "tok" "owl" 12345 67890 11111 in
  snd (InitiateLiveView (session_started 7 5 "https://host:443/p/ABC_1?client_id=55")
         cc) =
    Returns (Some (mkLiveviewResponse 7 5 "https://host:443/p/ABC_1?client_id=55"),
             None)
  /\ snd (InitiateLiveView (session_started 0 5 "") cc) <>
       Returns (Some (mkLiveviewResponse 0 5 ""), None).
Proof.
  intros cc. split.
  - apply (proj1 (InitiateLiveView_succeeds_iff _ cc)).
    do 2 eexists. repeat split. discriminate.
  - intros H.
    apply (proj1 (InitiateLiveView_succeeds_iff _ cc)) in H
      as (_ & _ & _ & _ & _ & _ & Hid).
    now apply Hid.
Defined.

End StartSession.

Section SendingFrames.

Import blinkProtocol blinkSend.

(** Writing a list of frames: the frames before the first failed write are
    on the connection, in order, and no other. *)
Lemma write_frames_in_order (frames : list (list byte)) :
  forall client,
    exists k,
      (k <= List.length frames)%nat
      /\ tls.written (fst (write_frames client frames)) =
           (tls.written client ++ firstn k frames)%list
      /\ (snd (write_frames client frames) = None <-> k = List.length frames)
      /\ (forall j, (j < k)%nat ->
                    tls.write_result client (tls.writes client + j) = None)
      /\ (k < List.length frames ->
          tls.write_result client (tls.writes client + k) <> None)%nat.
Proof.
  induction frames as [|frame rest IH]; intros client.
  - exists 0%nat. cbn. rewrite app_nil_r. repeat split; auto; lia.
  - cbn [write_frames]. unfold tls.Write.
    destruct (tls.write_result client (tls.writes client)) as [err|] eqn:Hw.
    + exists 0%nat. cbn. rewrite app_nil_r, Nat.add_0_r.
      repeat split; try discriminate; try lia. now rewrite Hw.
    + destruct (IH (tls.mkConn (tls.RemoteAddr client)
                      (tls.written client ++ [frame])
                      (S (tls.writes client)) (tls.write_result client)
                      (tls.SetWriteDeadline_result client)))
        as (k & Hk & Hwritten & Hnil & Hok & Hbad).
      cbn [tls.written tls.writes tls.write_result] in *.
      exists (S k). cbn [List.length firstn].
      split; [lia|]. split; [now rewrite Hwritten, <- app_assoc|].
      split; [rewrite Hnil; lia|]. split.
      * intros [|j] Hj; [now rewrite Nat.add_0_r|].
        replace (tls.writes client + S j)%nat
          with (S (tls.writes client) + j)%nat by lia.
        apply Hok. lia.
      * intros Hlt.
        replace (tls.writes client + S k)%nat
          with (S (tls.writes client) + k)%nat by lia.
        apply Hbad. lia.
Qed.

(** X7.  The handshake goes out frame by frame, in order, and stops at the
    first write that fails: the writes of [SendAuthFrames] that went through
    are the first [k] of the five frames, [k] being 5 exactly when it returns
    nil.  When the write deadline cannot be set, nothing is written. *)
Theorem SendAuthFrames_in_order (client : tls.Conn) (connectionId : string)
  (clientId : Z) :
  (tls.SetWriteDeadline_result client = None ->
   exists k,
     (k <= 5)%nat
     /\ tls.written (fst (SendAuthFrames client connectionId clientId)) =
          (tls.written client
           ++ firstn k (GenerateAuthFrames connectionId clientId))%list
     /\ (snd (SendAuthFrames client connectionId clientId) = None <-> k = 5%nat)
     /\ (forall j, (j < k)%nat ->
                   tls.write_result client (tls.writes client + j) = None)
     /\ (k < 5 ->
         tls.write_result client (tls.writes client + k) <> None)%nat)
  /\ (forall err,
         tls.SetWriteDeadline_result client = Some err ->
         SendAuthFrames client connectionId clientId =
           (client, Some ("error setting write deadline: " ++ err))).
Proof.
  unfold SendAuthFrames. split.
  - intros ->.
    exact (write_frames_in_order (GenerateAuthFrames connectionId clientId)
             client).
  - intros err ->. unfold fmt.Errorf.
    cbn [fmt.Sprintf fmt.format_arg Ascii.eqb Bool.eqb orb].
    now rewrite append_empty_r.
Qed.

Lemma SendAuthFrames_in_order_witness :
  let third_fails k := if Nat.eqb k 2 then Some "broken pipe" else None in
  let client := tls.mkConn "203.0.113.7:443" [] 0 third_fails None in
  exists k,
    k = 2%nat
    /\ tls.written (fst (SendAuthFrames client "ABC" 55)) =
         firstn k (GenerateAuthFrames "ABC" 55)
    /\ snd (SendAuthFrames client "ABC" 55) =
         Some "error sending connection header: broken pipe".
Proof.
  intros third_fails client.
  destruct (proj1 (SendAuthFrames_in_order client "ABC" 55) eq_refl)
    as (k & Hk & Hwritten & Hnil & Hok & Hbad).
  exists k.
  assert (E : k = 2%nat).
  { destruct k as [|[|[|k]]]; [| |reflexivity|].
    - exfalso. apply Hbad; [lia | reflexivity].
    - exfalso. apply Hbad; [lia | reflexivity].
    - specialize (Hok 2%nat ltac:(lia)). discriminate Hok. }
  split; [exact E|]. split; [exact Hwritten | reflexivity].
Defined.

End SendingFrames.

Section StreamRuns.

Import transport expected observed.

(** What one run of the loop leaves behind, by the way it is left. *)
Lemma stream_loop_trace (config : StreamConfig) (script : list iteration) :
  forall client start readTimeout,
    let run := stream_loop config script client start readTimeout in
    let events := fst (fst run) in
    closes events = 0%nat
    /\ (exists n, (n <= List.length script)%nat
                  /\ sink_writes events = map read_data (firstn n script))
    /\ (pings events <= List.length (sink_writes events))%nat
    /\ (List.length (sink_writes events) <= reads events)%nat
    /\ (reads events <= deadlines events)%nat
    /\ (snd run = Finished None ->
        Exists (fun it => ctx_done it = true) script
        /\ In (Log "Closing TCP stream") events).
Proof.
  unfold deadlines.
  induction script as [|it later IH]; intros client start readTimeout.
  - cbn. repeat split; try lia; try discriminate.
    exists 0%nat. split; [lia | reflexivity].
  - cbn [stream_loop].
    destruct (ctx_done it) eqn:Hdone.
    { cbn. repeat split; try lia; auto.
      exists 0%nat. split; [lia | reflexivity]. }
    destruct (SetReadDeadline_result it).
    { cbn. repeat split; try lia; try discriminate.
      exists 0%nat. split; [lia | reflexivity]. }
    destruct (read_err it).
    { cbn. repeat split; try lia; try discriminate.
      exists 0%nat. split; [lia | reflexivity]. }
    destruct (sink_result it).
    { cbn. repeat split; try lia; try discriminate.
      exists 1%nat. split; [lia | reflexivity]. }
    destruct (PingInterval config <? now_check it - start)%Z.
    + destruct (OnPing config client) as [client' [err|]].
      { cbn. repeat split; try lia; try discriminate.
        exists 1%nat. split; [lia | reflexivity]. }
      specialize (IH client' (now_reset it) (2 * Second)).
      destruct (stream_loop config later client' (now_reset it) (2 * Second))
        as [[events c] r].
      cbn [fst snd] in *.
      destruct IH as (Hc & (n & Hn & Hs) & Hp & Hw & Hr & Hnil).
      cbn [closes sink_writes pings reads read_timeouts List.length In].
      split; [exact Hc|]. split.
      { exists (S n). split; [lia|]. cbn [firstn map]. now rewrite Hs. }
      repeat split; try lia.
      * constructor 2. now apply Hnil.
      * right. right. right. right. now apply Hnil.
    + specialize (IH client start (2 * Second)).
      destruct (stream_loop config later client start (2 * Second))
        as [[events c] r].
      cbn [fst snd] in *.
      destruct IH as (Hc & (n & Hn & Hs) & Hp & Hw & Hr & Hnil).
      cbn [closes sink_writes pings reads read_timeouts List.length In].
      split; [exact Hc|]. split.
      { exists (S n). split; [lia|]. cbn [firstn map]. now rewrite Hs. }
      repeat split; try lia.
      * constructor 2. now apply Hnil.
      * right. right. right. now apply Hnil.
Qed.

Lemma trace_leaving (events : list event) (msg : string) :
  sink_writes (events ++ [Log msg; Close]) = sink_writes events
  /\ pings (events ++ [Log msg; Close]) = pings events
  /\ closes (events ++ [Log msg; Close]) = S (closes events)
  /\ read_timeouts (events ++ [Log msg; Close]) = read_timeouts events.
Proof.
  induction events as [|ev events (Hs & Hp & Hc & Hd)]; [repeat split|].
  destruct ev; cbn [app sink_writes pings closes read_timeouts];
    rewrite ?Hs, ?Hp, ?Hc, ?Hd; repeat split.
Qed.

Lemma Stream_trace (env : session) (config : StreamConfig)
  (host port : string) (client : tls.Conn) :
  dial env = inl client ->
  snd (OnConnect config client) = None ->
  let loop := stream_loop config (script env) (fst (OnConnect config client))
                (now_start env) (ReadTimeout config) in
  let leaving :=
    [Log ("Disconnected from " ++ tls.RemoteAddr client); Close] in
  let opening :=
    [Log ("Connecting to " ++ host ++ ":" ++ port);
     Log ("Connected to " ++ tls.RemoteAddr client)] in
  Stream env config host port =
    match snd loop with
    | Finished streamErr =>
        (opening ++ fst (fst loop) ++ leaving, Finished streamErr)
    | Waiting => (opening ++ fst (fst loop), Waiting)
    end%list.
Proof.
  intros Hdial Hconnect. unfold Stream. rewrite Hdial.
  destruct (OnConnect config client) as [client' [err|]];
    cbn [fst snd] in *; [discriminate|].
  destruct (stream_loop config (script env) client' (now_start env)
              (ReadTimeout config)) as [[events c] [streamErr|]];
    cbn [fst snd fmt.Sprintf fmt.format_arg Ascii.eqb Bool.eqb orb app];
    rewrite ?append_empty_r; reflexivity.
Qed.

(** X8.  The sink gets what was read and nothing else: the blocks written to
    it are the data of the first so many reads of the session, block by
    block and in order.  A ping is sent only in an iteration that wrote to the
    sink, a write to the sink follows a read, and a read follows the setting
    of its deadline. *)
Theorem Stream_sink_in_order (env : session) (config : StreamConfig)
  (host port : string) :
  let trace := fst (Stream env config host port) in
  (exists n, (n <= List.length (script env))%nat
             /\ sink_writes trace = map read_data (firstn n (script env)))
  /\ (pings trace <= List.length (sink_writes trace))%nat
  /\ (List.length (sink_writes trace) <= reads trace)%nat
  /\ (reads trace <= deadlines trace)%nat.
Proof.
  cbv zeta.
  assert (Hnone : forall trace : list event,
             sink_writes trace = [] -> pings trace = 0%nat ->
             reads trace = 0%nat ->
             (exists n, (n <= List.length (script env))%nat
                        /\ sink_writes trace =
                             map read_data (firstn n (script env)))
             /\ (pings trace <= List.length (sink_writes trace))%nat
             /\ (List.length (sink_writes trace) <= reads trace)%nat
             /\ (reads trace <= deadlines trace)%nat).
  { intros trace -> -> ->. repeat split; try (cbn; lia).
    exists 0%nat. split; [lia | reflexivity]. }
  destruct (dial env) as [client | err] eqn:Hdial.
  2:{ unfold Stream. rewrite Hdial. now apply Hnone. }
  destruct (snd (OnConnect config client)) as [err|] eqn:Hconnect.
  { unfold Stream. rewrite Hdial.
    destruct (OnConnect config client) as [client' [e|]];
      [now apply Hnone | discriminate]. }
  rewrite (Stream_trace env config host port client Hdial Hconnect).
  pose proof (stream_loop_trace config (script env)
                (fst (OnConnect config client)) (now_start env)
                (ReadTimeout config)) as H.
  cbv zeta in H.
  destruct (stream_loop config (script env) (fst (OnConnect config client))
              (now_start env) (ReadTimeout config)) as [[events c] r].
  cbn [fst snd] in *. unfold deadlines in *.
  destruct H as (_ & Hs & Hp & Hw & Hr & _).
  destruct r as [streamErr|]; cbn [fst app sink_writes pings reads read_timeouts].
  - destruct (trace_leaving events
                ("Disconnected from " ++ tls.RemoteAddr client))
      as (Es & Ep & _ & Ed).
    destruct (deadlines_of_reads_leaving None events
                ("Disconnected from " ++ tls.RemoteAddr client)) as (_ & Er).
    rewrite Es, Ep, Ed, Er. auto.
  - auto.
Qed.

(** X9.  [Stream] returns nil only by cancellation: a session opened, the
    handshake went through, and the loop found the context done, which it
    logs.  And when the context is done before the first read, [Stream]
    returns nil without reading, whatever else the session holds. *)
Theorem Stream_nil_is_cancellation (env : session) (config : StreamConfig)
  (host port : string) :
  (snd (Stream env config host port) = Finished None ->
   (exists client,
       dial env = inl client /\ snd (OnConnect config client) = None)
   /\ Exists (fun it => ctx_done it = true) (script env)
   /\ In (Log "Closing TCP stream") (fst (Stream env config host port)))
  /\ (forall client it later,
         dial env = inl client ->
         snd (OnConnect config client) = None ->
         script env = it :: later ->
         ctx_done it = true ->
         snd (Stream env config host port) = Finished None
         /\ reads (fst (Stream env config host port)) = 0%nat).
Proof.
  split.
  - destruct (dial env) as [client | err] eqn:Hdial.
    2:{ unfold Stream. rewrite Hdial. discriminate. }
    destruct (snd (OnConnect config client)) as [err|] eqn:Hconnect.
    { unfold Stream. rewrite Hdial.
      destruct (OnConnect config client) as [client' [e|]]; discriminate. }
    rewrite (Stream_trace env config host port client Hdial Hconnect).
    pose proof (stream_loop_trace config (script env)
                  (fst (OnConnect config client)) (now_start env)
                  (ReadTimeout config)) as H.
    cbv zeta in H.
    destruct (stream_loop config (script env) (fst (OnConnect config client))
                (now_start env) (ReadTimeout config)) as [[events c] r].
    cbn [fst snd] in *.
    destruct r as [streamErr|]; cbn [fst snd]; [|discriminate].
    intros E. injection E as ->.
    destruct H as (_ & _ & _ & _ & _ & Hnil).
    destruct (Hnil eq_refl) as [Hex Hin].
    split; [now exists client|]. split; [exact Hex|].
    apply in_or_app. right. apply in_or_app. left. exact Hin.
  - intros client it later Hdial Hconnect Hscript Hdone.
    rewrite (Stream_trace env config host port client Hdial Hconnect).
    rewrite Hscript. cbn [stream_loop]. rewrite Hdone. cbn. split; reflexivity.
Qed.

Lemma Stream_nil_is_cancellation_witness :
  let config :=
    mkStreamConfig 0 0 (15 * Second) (1 * Second) blinkSend.SendPing
      (fun conn => blinkSend.SendAuthFrames conn "ABC" 55) in
  let env :=
    mkSession (inl (healthy "203.0.113.7:443")) 0
      [mkIteration true 0 None [] None None 0 0; arrives [x47] 1] in
  snd (Stream env config "host" "443") = Finished None
  /\ reads (fst (Stream env config "host" "443")) = 0%nat.
Proof.
  intros config env.
  exact (proj2 (Stream_nil_is_cancellation env config "host" "443")
           (healthy "203.0.113.7:443") _ _ eq_refl eq_refl eq_refl eq_refl).
Defined.

(** X10.  A session that was opened is closed on every way out, once and as
    the last thing [Stream] does; while the loop runs it is open.  When the
    dial fails there is nothing to close, and the error says that the stream
    could not be set up. *)
Theorem Stream_closes_session (env : session) (config : StreamConfig)
  (host port : string) :
  (forall client,
      dial env = inl client ->
      (forall result,
          snd (Stream env config host port) = Finished result ->
          closes (fst (Stream env config host port)) = 1%nat
          /\ exists events,
               fst (Stream env config host port) =
                 (events
                  ++ [Log ("Disconnected from " ++ tls.RemoteAddr client);
                      Close])%list)
      /\ (snd (Stream env config host port) = Waiting ->
          closes (fst (Stream env config host port)) = 0%nat))
  /\ (forall err,
         dial env = inr err ->
         Stream env config host port =
           ([Log ("Connecting to " ++ host ++ ":" ++ port)],
            Finished (Some ("unable to initialize stream: " ++ err)))).
Proof.
  split.
  - intros client Hdial.
    destruct (snd (OnConnect config client)) as [err|] eqn:Hconnect.
    { unfold Stream. rewrite Hdial.
      destruct (OnConnect config client) as [client' [e|]]; [|discriminate].
      cbn [fst snd fmt.Sprintf fmt.format_arg Ascii.eqb Bool.eqb orb].
      rewrite !append_empty_r.
      split; [|discriminate]. intros result _. split; [reflexivity|].
      eexists [_; _]. reflexivity. }
    rewrite (Stream_trace env config host port client Hdial Hconnect).
    pose proof (stream_loop_trace config (script env)
                  (fst (OnConnect config client)) (now_start env)
                  (ReadTimeout config)) as H.
    cbv zeta in H.
    destruct (stream_loop config (script env) (fst (OnConnect config client))
                (now_start env) (ReadTimeout config)) as [[events c] r].
    cbn [fst snd] in *. destruct H as (Hc & _).
    destruct r as [streamErr|]; cbn [fst snd app closes].
    + split; [|discriminate]. intros result _.
      destruct (trace_leaving events
                  ("Disconnected from " ++ tls.RemoteAddr client))
        as (_ & _ & Ec & _).
      rewrite Ec, Hc. split; [reflexivity|].
      eexists (_ :: _ :: events). reflexivity.
    + split; [discriminate|]. intros _. exact Hc.
  - intros err Hdial. unfold Stream. rewrite Hdial.
    cbn [fmt.Sprintf fmt.Errorf fmt.format_arg Ascii.eqb Bool.eqb orb].
    unfold fmt.Errorf.
    cbn [fmt.Sprintf fmt.format_arg Ascii.eqb Bool.eqb orb].
    now rewrite !append_empty_r.
Qed.

Lemma Stream_closes_session_witness :
  let config :=
    mkStreamConfig 0 0 (15 * Second) (1 * Second) blinkSend.SendPing
      (fun conn => blinkSend.SendAuthFrames conn "ABC" 55) in
  let env :=
    mkSession (inl (healthy "203.0.113.7:443")) 0
      [arrives [x47] 1; times_out (3 * Second)] in
  closes (fst (Stream env config "host" "443")) = 1%nat
  /\ Stream (mkSession (inr "connection refused") 0 []) config "host" "443" =
       ([Log "Connecting to host:443"],
        Finished (Some "unable to initialize stream: connection refused")).
Proof.
  intros config env. split.
  - exact (proj1 (proj1 (proj1 (Stream_closes_session env config "host" "443")
                           (healthy "203.0.113.7:443") eq_refl)
                    (Some "read timeout: i/o timeout") eq_refl)).
  - exact (proj2 (Stream_closes_session
                    (mkSession (inr "connection refused") 0 []) config
                    "host" "443") "connection refused" eq_refl).
Defined.

(** X11.  No read before the handshake: when the handshake callback fails,
    [Stream] reports it as an error on connect, sets no read deadline, reads
    nothing, hands nothing to the sink, and closes the session. *)
Theorem Stream_handshake_first (env : session) (config : StreamConfig)
  (host port : string) (client : tls.Conn) (err : error) :
  dial env = inl client ->
  snd (OnConnect config client) = Some err ->
  let run := Stream env config host port in
  snd run = Finished (Some ("error on connect: " ++ err))
  /\ deadlines (fst run) = 0%nat
  /\ reads (fst run) = 0%nat
  /\ sink_writes (fst run) = []
  /\ closes (fst run) = 1%nat.
Proof.
  intros Hdial Hconnect. unfold Stream. rewrite Hdial.
  destruct (OnConnect config client) as [client' [e|]];
    cbn [snd] in Hconnect; [|discriminate].
  injection Hconnect as ->. cbn [fst snd]. unfold fmt.Errorf.
  cbn [fmt.Sprintf fmt.format_arg Ascii.eqb Bool.eqb orb].
  rewrite append_empty_r. repeat split.
Qed.

Lemma Stream_handshake_first_witness :
  let config :=
    mkStreamConfig 0 0 (15 * Second) (1 * Second) blinkSend.SendPing
      (fun conn => blinkSend.SendAuthFrames conn "ABC" 55) in
  let refusing :=
    tls.mkConn "203.0.113.7:443" [] 0 (fun _ => Some "broken pipe") None in
  let env := mkSession (inl refusing) 0 [arrives [x47] 1] in
  snd (Stream env config "host" "443") =
    Finished (Some ("error on connect: "
                    ++ "error sending connection header: broken pipe"))
  /\ reads (fst (Stream env config "host" "443")) = 0%nat.
Proof.
  intros config refusing env.
  destruct (Stream_handshake_first env config "host" "443" refusing
              "error sending connection header: broken pipe" eq_refl eq_refl)
    as (Hres & _ & Hreads & _).
  split; [exact Hres | exact Hreads].
Defined.

(** X12.  With [SendPing] as the ping callback, as the client sets it, the
    read loop writes nothing to the connection but keep-alive frames, each
    whole and at most one per ping. *)
Theorem stream_loop_writes_keepalives (config : StreamConfig)
  (script : list iteration) :
  OnPing config = blinkSend.SendPing ->
  forall client start readTimeout,
    let run := stream_loop config script client start readTimeout in
    exists k,
      (k <= pings (fst (fst run)))%nat
      /\ tls.written (snd (fst run)) =
           (tls.written client
            ++ repeat blinkProtocol.FRAMES_KEEPALIVE k)%list.
Proof.
  intros Hping.
  assert (Hstay : forall (client : tls.Conn) (events : list event),
             exists k, (k <= pings events)%nat
                       /\ tls.written client =
                            (tls.written client
                             ++ repeat blinkProtocol.FRAMES_KEEPALIVE k)%list).
  { intros. exists 0%nat. cbn. rewrite app_nil_r. split; [lia | reflexivity]. }
  induction script as [|it later IH]; intros client start readTimeout;
    cbn [stream_loop]; [apply Hstay|].
  destruct (ctx_done it); [apply Hstay|].
  destruct (SetReadDeadline_result it); [apply Hstay|].
  destruct (read_err it); [apply Hstay|].
  destruct (sink_result it); [apply Hstay|].
  destruct (PingInterval config <? now_check it - start)%Z.
  - rewrite Hping. unfold blinkSend.SendPing, tls.Write.
    destruct (tls.SetWriteDeadline_result client) eqn:Hd; [apply Hstay|].
    destruct (tls.write_result client (tls.writes client)) eqn:Hw;
      [cbn [fst snd tls.written]; apply Hstay|].
    set (client' := tls.mkConn _ _ _ _ _).
    specialize (IH client' (now_reset it) (2 * Second)). cbv zeta in IH.
    destruct (stream_loop config later client' (now_reset it) (2 * Second))
      as [[events c] r].
    cbn [fst snd] in *. destruct IH as (k & Hk & Hwritten).
    exists (S k). cbn [pings repeat]. split; [lia|].
    rewrite Hwritten. subst client'. cbn [tls.written].
    now rewrite <- app_assoc.
  - specialize (IH client start (2 * Second)). cbv zeta in IH.
    destruct (stream_loop config later client start (2 * Second))
      as [[events c] r].
    cbn [fst snd] in *. destruct IH as (k & Hk & Hwritten).
    exists k. cbn [pings]. split; [lia | exact Hwritten].
Qed.

Lemma stream_loop_writes_keepalives_witness :
  let config :=
    mkStreamConfig 0 0 (15 * Second) (1 * Second) blinkSend.SendPing
      (fun conn => blinkSend.SendAuthFrames conn "ABC" 55) in
  let script :=
    [arrives [x47] (2 * Second); arrives [x47] (2 * Second + 1);
     arrives [x47] (4 * Second)] in
  exists k,
    (k <= 2)%nat
    /\ tls.written
         (snd (fst (stream_loop config script (healthy "203.0.113.7:443") 0
                      (15 * Second)))) =
       repeat blinkProtocol.FRAMES_KEEPALIVE k.
Proof.
  intros config script.
  exact (stream_loop_writes_keepalives config script eq_refl
           (healthy "203.0.113.7:443") 0 (15 * Second)).
Defined.

End StreamRuns.

Section ClientLifecycle.

Import http blinkAdapter liveview expected observed.

Lemma settled_fresh (w : World) :
  settled w -> is_cancelled w (contexts w) = false.
Proof.
  unfold settled, is_cancelled. intros Hw.
  destruct (existsb (Nat.eqb (contexts w)) (cancelled w)) eqn:E; [|reflexivity].
  apply existsb_exists in E as (ctx & Hin & Heq).
  apply Nat.eqb_eq in Heq. subst ctx. apply Hw in Hin. lia.
Qed.

(** X13.  A [Connect] that goes through sends the start request and nothing
    else, marks the client connected with the command id of the answer, and
    starts two goroutines under one new context, the one the client can
    cancel: the poll of that command at the interval of the answer, and the
    stream to the host and port of the connection string, written to the
    caller's sink, with the client's connect timeout for the first read and a
    ping every second.  Both are running when [Connect] returns. *)
Theorem Connect_starts_session (do : Request -> reply LiveviewResponse)
  (writer : nat) (c : Client) (w : World) (sent : list Request)
  (resp : LiveviewResponse) (host port connId : string) (clientId : Z) :
  connected (state c) = false ->
  settled w ->
  InitiateLiveView do (credentials c) = (sent, Returns (Some resp, None)) ->
  ParseConnectionString (Server resp) = (host, port, clientId, connId, None) ->
  exists c' w' streamConfig,
    Connect do writer c w = Returns (None, c', w')
    /\ state c' =
         mkState true (CommandId resp) (Some (contexts w)) (Some (contexts w))
    /\ credentials c' = credentials c /\ config c' = config c
    /\ requests w' = (requests w ++ sent)%list
    /\ goroutines w' =
         (goroutines w ++
          [GoPollCommand (contexts w) (credentials c) (CommandId resp)
             (PollingInterval resp);
           GoStreamThenDisconnect streamConfig host port])%list
    /\ transport.Ctx streamConfig = contexts w
    /\ transport.Writer streamConfig = writer
    /\ transport.ReadTimeout streamConfig = ConnectTimeout (config c)
    /\ transport.PingInterval streamConfig = 1000000000
    /\ transport.OnPing streamConfig = blinkSend.SendPing
    /\ (forall conn,
           transport.OnConnect streamConfig conn =
             blinkSend.SendAuthFrames conn connId clientId)
    /\ contexts w' = S (contexts w)
    /\ cancelled w' = cancelled w
    /\ forallb (running w')
         [GoPollCommand (contexts w) (credentials c) (CommandId resp)
            (PollingInterval resp);
          GoStreamThenDisconnect streamConfig host port] = true.
Proof.
  intros Hc Hw Hstart Hparse.
  apply settled_fresh in Hw.
  unfold Connect. rewrite Hc, Hstart. cbn [bind WithCancel send].
  rewrite Hparse.
  do 3 eexists. split; [reflexivity|].
  do 4 (split; [reflexivity|]).
  split.
  { cbn [goroutines go send]. rewrite <- app_assoc. reflexivity. }
  repeat (split; [reflexivity|]).
  cbn [forallb]. unfold running, is_cancelled in *.
  cbn [context_of go send cancelled contexts transport.Ctx]. now rewrite Hw.
Qed.

Lemma Connect_starts_session_witness :
  let c0 := NewClient "u011" "tok" "owl" 12345 67890 11111 in
  let start :=
    session_started 7 5 "https://host:443/path/ABC_123?client_id=55" in
  exists c1 w1 streamConfig,
    Connect start 3 c0 quiet = Returns (None, c1, w1)
    /\ state c1 = mkState true 7 (Some 0%nat) (Some 0%nat)
    /\ goroutines w1 =
         [GoPollCommand 0 (credentials c0) 7 5;
          GoStreamThenDisconnect streamConfig "host" "443"]
    /\ transport.ReadTimeout streamConfig = 15000000000.
Proof.
  intros c0 start.
  destruct (Connect_starts_session start 3 c0 quiet
              (fst (InitiateLiveView start (credentials c0)))
              (mkLiveviewResponse 7 5
                 "https://host:443/path/ABC_123?client_id=55")
              "host" "443" "ABC" 55 eq_refl
              (fun ctx (H : In ctx []) => match H with end)
              eq_refl eq_refl)
    as (c1 & w1 & streamConfig & Hret & Hstate & _ & _ & _ & Hgo & _ & _
        & Htimeout & _).
  exists c1, w1, streamConfig.
  split; [exact Hret|]. split; [exact Hstate|].
  split; [exact Hgo | exact Htimeout].
Defined.

(** X14.  When the session cannot be started, [Connect] hands the error on
    with its own prefix and changes nothing in the client; it makes no
    context and starts no goroutine, and the world differs only by the
    requests the start has sent. *)
Theorem Connect_start_fails (do : Request -> reply LiveviewResponse)
  (writer : nat) (c : Client) (w : World) (err : error) :
  connected (state c) = false ->
  snd (InitiateLiveView do (credentials c)) = Returns (None, Some err) ->
  exists w',
    Connect do writer c w =
      Returns (Some ("error during connect: " ++ err), c, w')
    /\ requests w' =
         (requests w ++ fst (InitiateLiveView do (credentials c)))%list
    /\ contexts w' = contexts w
    /\ cancelled w' = cancelled w
    /\ goroutines w' = goroutines w
    /\ logged w' = logged w.
Proof.
  intros Hc Hstart. eexists. split.
  - now apply Connect_start_failure.
  - repeat split.
Qed.

Lemma Connect_start_fails_witness :
  let c0 := NewClient "u011" "tok" "owl" 12345 67890 11111 in
  let forbidden : Request -> reply LiveviewResponse :=
    fun _ => (Some (mkResponse 401 (DecodeError "unexpected end of JSON input")),
              None) in
  exists w',
    Connect forbidden 0 c0 quiet =
      Returns (Some ("error during connect: "
                     ++ "error from API. HTTP Status Code 401"), c0, w')
    /\ List.length (requests w') = 1%nat
    /\ goroutines w' = [].
Proof.
  intros c0 forbidden.
  destruct (Connect_start_fails forbidden 0 c0 quiet
              "error from API. HTTP Status Code 401" eq_refl eq_refl)
    as (w' & Hret & Hreq & _ & _ & Hgo & _).
  exists w'. split; [exact Hret|].
  split; [now rewrite Hreq | exact Hgo].
Defined.

(** X15.  With a device type that has no template, [Connect] fails before
    anything is sent: the error names the device type, and the client and
    the world are as before. *)
Theorem Connect_unsupported_device (do : Request -> reply LiveviewResponse)
  (writer : nat) (c : Client) (w : World) :
  connected (state c) = false ->
  ~ supported (DeviceType (credentials c)) ->
  Connect do writer c w =
    Returns (Some ("error during connect: error getting liveview path: "
                   ++ "cannot build path for unknown device type: "
                   ++ DeviceType (credentials c)),
             c, w).
Proof.
  intros Hc Hno. unfold supported in Hno. cbn [In] in Hno.
  assert (E : forall t, DeviceType (credentials c) <> t ->
                        String.eqb (DeviceType (credentials c)) t = false)
    by (intros t; apply String.eqb_neq).
  assert (Huri : CreateLiveViewURI (credentials c) =
                 ("", Some ("cannot build path for unknown device type: "
                            ++ DeviceType (credentials c)))).
  { unfold CreateLiveViewURI. rewrite !E by (intros Ht; rewrite Ht in Hno; tauto).
    cbn. now rewrite append_empty_r. }
  unfold Connect, InitiateLiveView. rewrite Hc, Huri. cbn [bind].
  unfold fmt.Errorf.
  cbn [fmt.Sprintf fmt.format_arg Ascii.eqb Bool.eqb orb].
  rewrite !append_empty_r. unfold send. rewrite app_nil_r.
  destruct w. reflexivity.
Qed.

Lemma Connect_unsupported_device_witness :
  let c0 := NewClient "u011" "tok" "" 12345 67890 11111 in
  Connect (session_started 7 5 "") 0 c0 quiet =
    Returns (Some ("error during connect: error getting liveview path: "
                   ++ "cannot build path for unknown device type: "),
             c0, quiet).
Proof.
  intros c0.
  apply (Connect_unsupported_device (session_started 7 5 "") 0 c0 quiet eq_refl).
  unfold supported. cbn [In].
  intros [H | [H | [H | [H | [H | []]]]]]; discriminate H.
Defined.



End ClientLifecycle.

Section ConnectionStringErrors.

Import blinkAdapter expected observed.

Lemma Split_without (s : string) (sep : ascii) :
  strings.Contains s sep = false -> strings.Split s sep = [s].
Proof.
  induction s as [|c s IH]; cbn; [reflexivity|]. intros H.
  apply Bool.orb_false_iff in H as [Hc Hs]. now rewrite Hc, (IH Hs).
Qed.

Lemma Split_trailing (s : string) (sep : ascii) :
  strings.Split (s ++ String sep "") sep = (strings.Split s sep ++ [""])%list.
Proof.
  induction s as [|c s IH]; cbn.
  - now rewrite Ascii.eqb_refl.
  - destruct (Ascii.eqb c sep); [now rewrite IH|].
    rewrite IH. pose proof (Split_nonempty s sep) as Hne.
    destruct (strings.Split s sep); [contradiction | reflexivity].
Qed.




(** X19.  The connection id has to be set off by an underscore in the last
    segment of the path.  With host and port in order, a last segment without
    an underscore is turned away as an invalid connection id, whatever the
    client id; so is every path that ends in a slash, and the empty path. *)
Theorem ParseConnectionString_needs_underscore (server : string)
  (u : url.URL) :
  url.Parse server = inl u ->
  url.Hostname u <> "" ->
  url.Port u = "443" ->
  (strings.Contains (last_segment u) "_" = false ->
   ParseConnectionString server = invalid "invalid connection ID")
  /\ (forall p, url.Path u = p ++ "/" ->
                ParseConnectionString server = invalid "invalid connection ID")
  /\ (url.Path u = "" ->
      ParseConnectionString server = invalid "invalid connection ID").
Proof.
  intros Hparse Hhost Hport.
  assert (H : strings.Contains (last_segment u) "_" = false ->
              ParseConnectionString server = invalid "invalid connection ID").
  { intros Hno. unfold ParseConnectionString. rewrite Hparse.
    apply String.eqb_neq in Hhost. rewrite Hhost, Hport.
    cbn [String.eqb Ascii.eqb Bool.eqb negb].
    pose proof (Split_length (url.Path u) "/") as Hlen.
    destruct (Nat.eqb_spec (List.length (strings.Split (url.Path u) "/")) 0)
      as [E0|_]; [lia|].
    unfold last_segment in Hno. cbv zeta in Hno.
    rewrite (Split_without _ _ Hno). reflexivity. }
  split; [exact H|]. split.
  - intros p Hpath. apply H. unfold last_segment. rewrite Hpath.
    change (p ++ "/") with (p ++ String "/" "").
    rewrite Split_trailing, length_app. cbn [List.length].
    replace (List.length (strings.Split p "/") + 1 - 1)%nat
      with (List.length (strings.Split p "/")) by lia.
    now rewrite nth_middle.
  - intros Hpath. apply H. unfold last_segment. now rewrite Hpath.
Qed.

Lemma ParseConnectionString_needs_underscore_witness :
  ParseConnectionString "https://host:443/path/ABC-123?client_id=55" =
    invalid "invalid connection ID"
  /\ ParseConnectionString "https://host:443/path/ABC_123/?client_id=55" =
       invalid "invalid connection ID".
Proof.
  split.
  - refine (proj1 (ParseConnectionString_needs_underscore
                     "https://host:443/path/ABC-123?client_id=55"
                     (url.mkURL "https" "" "host:443" "/path/ABC-123"
                                "client_id=55" "")
                     eq_refl _ eq_refl) eq_refl).
    discriminate.
  - refine (proj1 (proj2 (ParseConnectionString_needs_underscore
                     "https://host:443/path/ABC_123/?client_id=55"
                     (url.mkURL "https" "" "host:443" "/path/ABC_123/"
                                "client_id=55" "")
                     eq_refl _ eq_refl)) "/path/ABC_123" eq_refl).
    discriminate.
Defined.

End ConnectionStringErrors.

Section HandshakeIdentity.

Import blinkProtocol.

(** X20.  The handshake tells its inputs apart as far as four bytes can: two
    handshakes are the same exactly when the connection ids are the same and
    the client ids agree modulo 2^32.  The connection id can be read back
    from block 4 and the client id, as a uint32, from block 2. *)
Theorem GenerateAuthFrames_same_iff (connectionId connectionId' : string)
  (clientId clientId' : Z) :
  (GenerateAuthFrames connectionId clientId =
     GenerateAuthFrames connectionId' clientId' <->
   connectionId = connectionId' /\ clientId mod 2 ^ 32 = clientId' mod 2 ^ 32)
  /\ string_of_list_byte (nth 3 (GenerateAuthFrames connectionId clientId) []) =
       connectionId.
Proof.
  split; [split|].
  - intros H.
    assert (H2 : nth 1 (GenerateAuthFrames connectionId clientId) [] =
                 nth 1 (GenerateAuthFrames connectionId' clientId') [])
      by now rewrite H.
    assert (H4 : nth 3 (GenerateAuthFrames connectionId clientId) [] =
                 nth 3 (GenerateAuthFrames connectionId' clientId') [])
      by now rewrite H.
    rewrite !client_id_block in H2. cbn [GenerateAuthFrames nth] in H4.
    split.
    + rewrite <- (string_of_list_byte_of_string connectionId),
        <- (string_of_list_byte_of_string connectionId').
      now rewrite H4.
    + apply (f_equal (be_value 0)) in H2.
      now rewrite !be_value_PutUint32 in H2 by apply uint32_range.
  - intros [-> Hid]. unfold GenerateAuthFrames, uint32. now rewrite Hid.
  - cbn [GenerateAuthFrames nth]. apply string_of_list_byte_of_string.
Qed.

End HandshakeIdentity.

Section StreamEnds.

Import transport expected observed.

(** Over iterations in which nothing goes wrong, with pings that succeed, the
    loop reads and hands on the data of each and carries on with the rest of
    the script.  [ready] is what holds of the connection throughout. *)
Lemma stream_loop_smooth (config : StreamConfig) (ready : tls.Conn -> Prop)
  (before rest : list iteration) :
  (forall conn, ready conn ->
                snd (OnPing config conn) = None
                /\ ready (fst (OnPing config conn))) ->
  Forall smooth before ->
  forall client start readTimeout,
    ready client ->
    exists events client' start' readTimeout',
      stream_loop config (before ++ rest) client start readTimeout =
        (let run := stream_loop config rest client' start' readTimeout' in
         ((events ++ fst (fst run))%list, snd (fst run), snd run))
      /\ reads events = List.length before
      /\ sink_writes events = map read_data before.
Proof.
  intros Hping Hbefore.
  induction Hbefore as [|it before (Hdone & Hdeadline & Hread & Hsink) _ IH];
    intros client start readTimeout Hready.
  - exists [], client, start, readTimeout. cbn [app].
    destruct (stream_loop config rest client start readTimeout) as [[ev c] r].
    repeat split.
  - cbn [app stream_loop]. rewrite Hdone, Hdeadline, Hread, Hsink.
    destruct (PingInterval config <? now_check it - start)%Z.
    + destruct (Hping client Hready) as [Hp Hready1].
      destruct (OnPing config client) as [client1 [err|]];
        cbn [fst snd] in Hp, Hready1; [discriminate|].
      destruct (IH client1 (now_reset it) (2 * Second) Hready1)
        as (events & client' & start' & readTimeout' & Heq & Hr & Hs).
      rewrite Heq. cbv beta iota zeta.
      eexists (_ :: _ :: _ :: _ :: events), client', start', readTimeout'.
      split; [reflexivity|].
      cbn [reads sink_writes List.length map]. now rewrite Hr, Hs.
    + destruct (IH client start (2 * Second) Hready)
        as (events & client' & start' & readTimeout' & Heq & Hr & Hs).
      rewrite Heq. cbv beta iota zeta.
      eexists (_ :: _ :: _ :: events), client', start', readTimeout'.
      split; [reflexivity|].
      cbn [reads sink_writes List.length map]. now rewrite Hr, Hs.
Qed.

Lemma reads_app (a b : list event) : reads (a ++ b) = (reads a + reads b)%nat.
Proof.
  induction a as [|ev a IH]; [reflexivity|].
  destruct ev; cbn [app reads]; rewrite IH; reflexivity.
Qed.

Lemma sink_writes_app (a b : list event) :
  sink_writes (a ++ b) = (sink_writes a ++ sink_writes b)%list.
Proof.
  induction a as [|ev a IH]; [reflexivity|].
  destruct ev; cbn [app sink_writes]; rewrite IH; reflexivity.
Qed.

(** X21.  There is no retry in the stream.  After any number of iterations in
    which nothing went wrong, the pings among them having succeeded, the
    first read that fails ends [Stream] with an error that says what kind of
    failure it was: an end of file is a graceful close by the peer, else a
    reset is a reset by the peer, else a timeout is a read timeout, else it is
    an error reading from the server.  The data of that read is dropped: the
    sink has been handed the data of the reads before it and no more. *)
Theorem Stream_ends_at_read_error (env : session) (config : StreamConfig)
  (host port : string) (client : tls.Conn) (ready : tls.Conn -> Prop)
  (before later : list iteration) (it : iteration) (err : read_error) :
  dial env = inl client ->
  snd (OnConnect config client) = None ->
  ready (fst (OnConnect config client)) ->
  (forall conn, ready conn ->
                snd (OnPing config conn) = None
                /\ ready (fst (OnPing config conn))) ->
  script env = (before ++ it :: later)%list ->
  Forall smooth before ->
  ctx_done it = false ->
  SetReadDeadline_result it = None ->
  read_err it = Some err ->
  let run := Stream env config host port in
  reads (fst run) = S (List.length before)
  /\ sink_writes (fst run) = map read_data before
  /\ (is_EOF err = true ->
      snd run = Finished (Some ("connection closed gracefully by peer: "
                                ++ text err)))
  /\ (is_EOF err = false -> is_ECONNRESET err = true ->
      snd run = Finished (Some ("connection reset by peer: " ++ text err)))
  /\ (is_EOF err = false -> is_ECONNRESET err = false ->
      is_Timeout err = true ->
      snd run = Finished (Some ("read timeout: " ++ text err)))
  /\ (is_EOF err = false -> is_ECONNRESET err = false ->
      is_Timeout err = false ->
      snd run = Finished (Some ("error reading from server: " ++ text err))).
Proof.
  intros Hdial Hconnect Hready Hping Hscript Hbefore Hdone Hdeadline Hread run.
  subst run.
  rewrite (Stream_trace env config host port client Hdial Hconnect).
  rewrite Hscript.
  destruct (stream_loop_smooth config ready before (it :: later) Hping Hbefore
              (fst (OnConnect config client)) (now_start env)
              (ReadTimeout config) Hready)
    as (events & client' & start' & readTimeout' & Heq & Hr & Hs).
  rewrite Heq. cbn [stream_loop]. rewrite Hdone, Hdeadline, Hread.
  cbn [fst snd app].
  assert (Hclass : classify err =
            if is_EOF err then
              "connection closed gracefully by peer: " ++ text err
            else if is_ECONNRESET err then
              "connection reset by peer: " ++ text err
            else if is_Timeout err then "read timeout: " ++ text err
            else "error reading from server: " ++ text err).
  { unfold classify, fmt.Errorf.
    destruct (is_EOF err); [|destruct (is_ECONNRESET err);
                             [|destruct (is_Timeout err)]];
      cbn [fmt.Sprintf fmt.format_arg Ascii.eqb Bool.eqb orb];
      now rewrite append_empty_r. }
  rewrite Hclass.
  split; [|split].
  - cbn [reads]. rewrite !reads_app, Hr. cbn. lia.
  - cbn [sink_writes]. rewrite !sink_writes_app, Hs. cbn.
    rewrite !app_nil_r. reflexivity.
  - repeat split; intros; repeat
      match goal with H : _ = _ |- _ => rewrite H end; reflexivity.
Qed.

Lemma Stream_ends_at_read_error_witness :
  let config :=
    mkStreamConfig 0 0 (15 * Second) (1 * Second) blinkSend.SendPing
      (fun conn => blinkSend.SendAuthFrames conn "ABC" 55) in
  let reset :=
    mkIteration false (2 * Second) None [x00; x01]
      (Some (mkReadError false true true "read: connection reset by peer"))
      None (2 * Second) (2 * Second) in
  let env :=
    mkSession (inl (healthy "203.0.113.7:443")) 0
      [arrives [x47] (2 * Second); arrives [x47; x40] (2 * Second); reset;
       arrives [x47] (3 * Second)] in
  snd (Stream env config "host" "443") =
    Finished (Some ("connection reset by peer: "
                    ++ "read: connection reset by peer"))
  /\ sink_writes (fst (Stream env config "host" "443")) = [[x47]; [x47; x40]].
Proof.
  intros config reset env.
  pose (ready := fun conn : tls.Conn =>
                   tls.SetWriteDeadline_result conn = None
                   /\ tls.write_result conn = fun _ => None).
  assert (Hping : forall conn, ready conn ->
                    snd (OnPing config conn) = None
                    /\ ready (fst (OnPing config conn))).
  { intros conn [Hd Hw]. cbn [OnPing config].
    unfold blinkSend.SendPing, tls.Write. rewrite Hd, Hw.
    cbn [fst snd]. split; [reflexivity|]. split; reflexivity. }
  destruct (Stream_ends_at_read_error env config "host" "443"
              (healthy "203.0.113.7:443") ready
              [arrives [x47] (2 * Second); arrives [x47; x40] (2 * Second)]
              [arrives [x47] (3 * Second)] reset
              (mkReadError false true true "read: connection reset by peer")
              eq_refl eq_refl (conj eq_refl eq_refl) Hping eq_refl
              ltac:(repeat constructor) eq_refl eq_refl eq_refl)
    as (_ & Hsink & _ & Hreset & _).
  split; [exact (Hreset eq_refl eq_refl) | exact Hsink].
Defined.

End StreamEnds.

Section AdaptiveTimeout.

Import transport expected observed.

Lemma adaptive_deadlines_steady (iterations : list iteration) :
  adaptive_deadlines (2 * Second) iterations =
    map (under (2 * Second)) iterations.
Proof. destruct iterations; reflexivity. Qed.

(** The reads of the loop are those of the first so many iterations, one
    each, the first under the timeout the loop is entered with and the others
    under two seconds, each deadline counted from the clock of its own
    iteration. *)
Lemma stream_loop_read_deadlines (config : StreamConfig)
  (script : list iteration) :
  forall client start readTimeout current,
    let events := fst (fst (stream_loop config script client start readTimeout)) in
    exists n,
      (n <= List.length script)%nat
      /\ reads events = n
      /\ read_deadlines current events =
           adaptive_deadlines readTimeout (firstn n script).
Proof.
  induction script as [|it later IH]; intros client start readTimeout current.
  - exists 0%nat. repeat split. cbn. lia.
  - cbn [stream_loop].
    destruct (ctx_done it);
      [exists 0%nat; repeat split; cbn; lia|].
    destruct (SetReadDeadline_result it);
      [exists 0%nat; repeat split; cbn; lia|].
    destruct (read_err it);
      [exists 1%nat; repeat split; cbn; lia|].
    destruct (sink_result it);
      [exists 1%nat; repeat split; cbn; lia|].
    destruct (PingInterval config <? now_check it - start)%Z.
    + destruct (OnPing config client) as [client' [err|]];
        [exists 1%nat; repeat split; cbn; lia|].
      destruct (IH client' (now_reset it) (2 * Second)
                  (Some (now_deadline it, readTimeout)))
        as (n & Hn & Hreads & Hdeadlines).
      destruct (stream_loop config later client' (now_reset it) (2 * Second))
        as [[events c] r].
      cbn [fst snd] in *. exists (S n).
      cbn [List.length reads read_deadlines firstn adaptive_deadlines].
      split; [lia|]. split; [now rewrite Hreads|].
      rewrite adaptive_deadlines_steady in Hdeadlines.
      unfold under at 1. f_equal. exact Hdeadlines.
    + destruct (IH client start (2 * Second)
                  (Some (now_deadline it, readTimeout)))
        as (n & Hn & Hreads & Hdeadlines).
      destruct (stream_loop config later client start (2 * Second))
        as [[events c] r].
      cbn [fst snd] in *. exists (S n).
      cbn [List.length reads read_deadlines firstn adaptive_deadlines].
      split; [lia|]. split; [now rewrite Hreads|].
      rewrite adaptive_deadlines_steady in Hdeadlines.
      unfold under at 1. f_equal. exact Hdeadlines.
Qed.

Lemma read_deadlines_leaving (current : option (Z * Duration))
  (events : list event) (msg : string) :
  read_deadlines current (events ++ [Log msg; Close]) =
    read_deadlines current events.
Proof.
  revert current.
  induction events as [|ev events IH]; intros current; [reflexivity|].
  destruct ev; cbn [app read_deadlines]; now rewrite IH.
Qed.

(** C6.  In every run of [Stream], whatever the surroundings do, the reads
    are those of the first [n] iterations of the session, one read each, and
    each is made under the deadline set in its own iteration: the first read
    under the clock of the first iteration plus the configured [ReadTimeout],
    every later read under the clock of its iteration plus two seconds.  And
    the reads do happen: once the session is open and the handshake done, a
    read is made in every iteration in which nothing goes wrong, so a session
    that begins with so many such iterations has at least so many reads. *)
Theorem Stream_adaptive_timeout (env : session) (config : StreamConfig)
  (host port : string) :
  let trace := fst (Stream env config host port) in
  (exists n,
      (n <= List.length (script env))%nat
      /\ reads trace = n
      /\ read_deadlines None trace =
           adaptive_deadlines (ReadTimeout config) (firstn n (script env)))
  /\ (forall client ready before rest,
         dial env = inl client ->
         snd (OnConnect config client) = None ->
         ready (fst (OnConnect config client)) ->
         (forall conn, ready conn ->
                       snd (OnPing config conn) = None
                       /\ ready (fst (OnPing config conn))) ->
         script env = (before ++ rest)%list ->
         Forall smooth before ->
         (List.length before <= reads trace)%nat
         /\ firstn (List.length before) (read_deadlines None trace) =
              adaptive_deadlines (ReadTimeout config) before).
Proof.
  cbv zeta.
  assert (Hgeneral :
            exists n,
              (n <= List.length (script env))%nat
              /\ reads (fst (Stream env config host port)) = n
              /\ read_deadlines None (fst (Stream env config host port)) =
                   adaptive_deadlines (ReadTimeout config)
                     (firstn n (script env))).
  { destruct (dial env) as [client | err] eqn:Hdial.
    2:{ unfold Stream. rewrite Hdial. exists 0%nat. repeat split. lia. }
    destruct (snd (OnConnect config client)) as [err|] eqn:Hconnect.
    { unfold Stream. rewrite Hdial.
      destruct (OnConnect config client) as [client' [e|]]; [|discriminate].
      exists 0%nat. repeat split. lia. }
    rewrite (Stream_trace env config host port client Hdial Hconnect).
    destruct (stream_loop_read_deadlines config (script env)
                (fst (OnConnect config client)) (now_start env)
                (ReadTimeout config) None) as (n & Hn & Hreads & Hdeadlines).
    destruct (stream_loop config (script env) (fst (OnConnect config client))
                (now_start env) (ReadTimeout config)) as [[events c] r].
    cbn [fst snd] in *. exists n. split; [exact Hn|].
    destruct r as [streamErr|]; cbn [fst app reads read_deadlines].
    - destruct (deadlines_of_reads_leaving None events
                  ("Disconnected from " ++ tls.RemoteAddr client)) as (_ & Er).
      rewrite Er, read_deadlines_leaving. auto.
    - auto. }
  split; [exact Hgeneral|].
  intros client ready before rest Hdial Hconnect Hready Hping Hscript Hbefore.
  assert (Hreads : (List.length before
                    <= reads (fst (Stream env config host port)))%nat).
  { rewrite (Stream_trace env config host port client Hdial Hconnect).
    rewrite Hscript.
    destruct (stream_loop_smooth config ready before rest Hping Hbefore
                (fst (OnConnect config client)) (now_start env)
                (ReadTimeout config) Hready)
      as (events & client' & start' & readTimeout' & Heq & Hr & _).
    rewrite Heq. cbv zeta.
    destruct (stream_loop config rest client' start' readTimeout')
      as [[ev c] r]. cbn [fst snd].
    destruct r as [streamErr|]; cbn [fst app reads];
      rewrite !reads_app, Hr; lia. }
  split; [exact Hreads|].
  destruct Hgeneral as (n & Hn & Hn' & Hdeadlines).
  rewrite Hdeadlines, Hscript.
  assert (Hle : (List.length before <= n)%nat) by lia.
  clear - Hle.
  assert (Hfirst : firstn n (before ++ rest) =
                   (before ++ firstn (n - List.length before) rest)%list).
  { rewrite firstn_app.
    rewrite (firstn_all2 before) by lia. reflexivity. }
  rewrite Hfirst.
  destruct before as [|it more]; [reflexivity|].
  cbn [app adaptive_deadlines List.length firstn]. f_equal.
  rewrite map_app, firstn_app, length_map, Nat.sub_diag. cbn [firstn].
  rewrite app_nil_r. apply firstn_all2. rewrite length_map. lia.
Qed.

Lemma Stream_adaptive_timeout_witness :
  let config :=
    mkStreamConfig 0 0 (15 * Second) (1 * Second) blinkSend.SendPing
      (fun conn => blinkSend.SendAuthFrames conn "ABC" 55) in
  let slow := arrives [x47] (14 * Second) in
  let fast1 := arrives [x47; x40] (14 * Second + 1) in
  let fast2 := arrives [x00] (14 * Second + 2) in
  let env :=
    mkSession (inl (healthy "203.0.113.7:443")) 0
      [slow; fast1; fast2; times_out (16 * Second + 2)] in
  (3 <= reads (fst (Stream env config "host" "443")))%nat
  /\ firstn 3 (read_deadlines None (fst (Stream env config "host" "443"))) =
       [Some (14 * Second, 15 * Second);
        Some (14 * Second + 1, 2 * Second);
        Some (14 * Second + 2, 2 * Second)].
Proof.
  intros config slow fast1 fast2 env.
  pose (ready := fun conn : tls.Conn =>
                   tls.SetWriteDeadline_result conn = None
                   /\ tls.write_result conn = fun _ => None).
  assert (Hping : forall conn, ready conn ->
                    snd (OnPing config conn) = None
                    /\ ready (fst (OnPing config conn))).
  { intros conn [Hd Hw]. cbn [OnPing config].
    unfold blinkSend.SendPing, tls.Write. rewrite Hd, Hw.
    cbn [fst snd]. split; [reflexivity|]. split; reflexivity. }
  exact (proj2 (Stream_adaptive_timeout env config "host" "443")
           (healthy "203.0.113.7:443") ready [slow; fast1; fast2]
           [times_out (16 * Second + 2)]
           eq_refl eq_refl (conj eq_refl eq_refl) Hping eq_refl
           ltac:(repeat constructor)).
Defined.

End AdaptiveTimeout.
